(** * The Azure Arc inventory plugin ([plugins/inventory/azure_arc.py])

    A shallow embedding of [InventoryModule]: [verify_file], [parse],
    [get_arc_machines] and [generate_ssh_config].  The plugin is glue code
    around three collaborators it does not implement: the Azure CLI (run
    through [subprocess.run]), the file system ([os.path.exists],
    [os.remove]) and the inventory object of the host runtime.  They are
    modelled as an explicit world that [parse] threads through its steps;
    what the external commands answer is left to an oracle.  *)

From stdpp Require Import gmap strings list fin_maps.

(** ** Python values *)

(** The values a YAML or JSON document yields: null, booleans, integers,
    strings, sequences and mappings with string keys.  (Floating point
    numbers are left out.) *)
#[warnings="-register-all"]
Inductive pyval : Type :=
  | PyNone
  | PyBool (b : bool)
  | PyInt (n : Z)
  | PyStr (s : string)
  | PyList (l : list pyval)
  | PyDict (d : gmap string pyval).

(** Truth value of an object, as tested by [if not x]. *)
Definition truthy (v : pyval) : bool :=
  match v with
  | PyNone => false
  | PyBool b => b
  | PyInt n => negb (n =? 0)%Z
  | PyStr s => negb (String.eqb s "")
  | PyList l => match l with [] => false | _ => true end
  | PyDict d => negb (bool_decide (d = ∅))
  end.

(** [d.get(key)] and [d.get(key, default)]. *)
Definition dict_get (d : gmap string pyval) (key : string) (default : pyval) : pyval :=
  match d !! key with
  | Some v => v
  | None => default
  end.

(** ** Exceptions *)

Inductive exn : Type :=
  | ValueError (msg : string)
  | Exception (msg : string)
  | TypeError
  | KeyError (key : string)
  | JSONDecodeError
  | CalledProcessError (cmd : list string) (returncode : Z)
  | OSError (msg : string)
  | AnsibleError (msg : string).

Inductive result (A : Type) : Type :=
  | Ok (a : A)
  | Err (e : exn).
Arguments Ok {A} a.
Arguments Err {A} e.

(** ** [verify_file] *)

(** [s.endswith(suffix)]: the last [len(suffix)] characters of [s] are
    compared with [suffix]. *)
Definition endswith (s suffix : string) : bool :=
  let n := String.length s in
  let m := String.length suffix in
  (m <=? n) && String.eqb (String.substring (n - m) m s) suffix.

(** [s.endswith((a, b))]: some suffix of the tuple matches. *)
Definition endswith_any (s : string) (suffixes : list string) : bool :=
  existsb (endswith s) suffixes.

Definition verify_file (path : string) : bool :=
  endswith_any path ["azure_arc.yaml"; "azure_arc.yml"].

(** ** The world around the plugin *)

(** What a path of the file system holds. *)
Inductive node : Type :=
  | File (content : string)
  | Dir.

Abbreviation filesystem := (gmap string node).

(** The inventory object of the host runtime, as far as the plugin uses
    it: a registry of hosts keyed by name, each with its variables. *)
Abbreviation inventory := (gmap string (gmap string pyval)).

(** How a child process ends for [subprocess.run]: it exits with a return
    code and an output, or the call itself raises (the executable is missing,
    the output cannot be decoded, ...). *)
Inductive outcome : Type :=
  | Exited (returncode : Z) (stdout : string)
  | Raised (e : exn).

(** The side effects of a run, in the order they happen. *)
Inductive event : Type :=
  | EvRemove (path : string)
  | EvSpawn (command : list string) (o : outcome).

Record world : Type := World {
  fs : filesystem;
  inv : inventory;
  trace : list event
}.

(** A run starts with a file system, the inventory it is handed and no
    side effect yet. *)
Definition start (fs0 : filesystem) (inventory0 : inventory) : world :=
  {| fs := fs0; inv := inventory0; trace := [] |}.

(** What the plugin does not decide: the configuration document the loader
    reads, the home directory, the open file descriptors, what an external
    command does when it is run (it sees the history and the file system, and
    leaves an outcome and a file system), [json.loads], and the texts
    (with [None] for a text that is not JSON), and the texts [str(e)] of a
    [CalledProcessError] and [str(v)] of a value that is not a string. *)
Record env : Type := Env {
  _read_config_data : string → result (gmap string pyval);
  expanduser : string → string;
  fd_open : Z → bool;
  spawn : list event → list string → filesystem → outcome * filesystem;
  json_loads : string → option pyval;
  cpe_str : list string → Z → string;
  str_other : pyval → string
}.

(** ** Computations with side effects and exceptions *)

(** The effects made before an exception is raised stay. *)
Definition M (A : Type) : Type := world → result A * world.

Definition ret {A} (a : A) : M A := λ w, (Ok a, w).

Definition raise {A} (e : exn) : M A := λ w, (Err e, w).

Definition bind {A B} (m : M A) (k : A → M B) : M B := λ w,
  match m w with
  | (Ok a, w') => k a w'
  | (Err e, w') => (Err e, w')
  end.

Notation "x <- m ;; k" := (bind m (λ x, k))
  (at level 100, m at next level, right associativity).
Notation "m ;;; k" := (bind m (λ _, k))
  (at level 100, right associativity).

Definition lift {A} (r : result A) : M A := λ w, (r, w).

(** [json.loads(s)], which raises when [s] is not a JSON text. *)
Definition json_loads_or_raise (E : env) (s : string) : M pyval :=
  match json_loads E s with
  | Some v => ret v
  | None => raise JSONDecodeError
  end.

(** [try: body except CalledProcessError as e: handler]. *)
Definition try_except_cpe {A} (body : M A) (handler : list string → Z → M A) : M A := λ w,
  match body w with
  | (Err (CalledProcessError cmd rc), w') => handler cmd rc w'
  | r => r
  end.

(** [for x in l: body]. *)
Fixpoint for_each {A} (l : list A) (body : A → M unit) : M unit :=
  match l with
  | [] => ret tt
  | x :: l' => body x ;;; for_each l' body
  end.

(** [[f(x) for x in l]]. *)
Fixpoint comprehension {A B} (l : list A) (f : A → M B) : M (list B) :=
  match l with
  | [] => ret []
  | x :: l' => y <- f x ;; ys <- comprehension l' f ;; ret (y :: ys)
  end.

(** ** Operations on values *)

(** The items a [for] runs over: the elements of a list, the keys of a
    mapping, the characters of a string. *)
Definition py_iter (v : pyval) : result (list pyval) :=
  match v with
  | PyList l => Ok l
  | PyDict d => Ok (PyStr <$> (map_to_list d).*1)
  | PyStr s => Ok ((λ c, PyStr (String c "")) <$> String.list_ascii_of_string s)
  | _ => Err TypeError
  end.

(** [v[key]] for a string [key]. *)
Definition py_getitem (v : pyval) (key : string) : result pyval :=
  match v with
  | PyDict d =>
      match d !! key with
      | Some x => Ok x
      | None => Err (KeyError key)
      end
  | _ => Err TypeError
  end.

Definition as_int (v : pyval) : option Z :=
  match v with
  | PyInt n => Some n
  | PyBool b => Some (if b then 1 else 0)%Z
  | _ => None
  end.

(** [a + b]. *)
Definition py_add (a b : pyval) : result pyval :=
  match a, b with
  | PyStr x, PyStr y => Ok (PyStr (x +:+ y))
  | PyList x, PyList y => Ok (PyList (x ++ y))
  | _, _ =>
      match as_int a, as_int b with
      | Some x, Some y => Ok (PyInt (x + y))
      | _, _ => Err TypeError
      end
  end.

(** [f"{v}"]. *)
Definition py_format (E : env) (v : pyval) : string :=
  match v with
  | PyStr s => s
  | _ => str_other E v
  end.

Definition is_none (v : pyval) : bool :=
  match v with
  | PyNone => true
  | _ => false
  end.

(** The arguments of a command line have to be strings. *)
Fixpoint as_strs (command : list pyval) : option (list string) :=
  match command with
  | [] => Some []
  | PyStr s :: rest =>
      match as_strs rest with
      | Some l => Some (s :: l)
      | None => None
      end
  | _ :: _ => None
  end.

(** ** The collaborators *)

(** [subprocess.run(command, check=True)]: the command is run, the event is
    logged with its outcome, and a return code other than 0 raises
    [CalledProcessError]. *)
Definition subprocess_run (E : env) (command : list pyval) : M string :=
  match as_strs command with
  | None => raise TypeError
  | Some cmd => λ w,
      let '(o, fs') := spawn E (trace w) cmd (fs w) in
      let w' := {| fs := fs'; inv := inv w; trace := trace w ++ [EvSpawn cmd o] |} in
      match o with
      | Exited rc out =>
          if (rc =? 0)%Z then (Ok out, w') else (Err (CalledProcessError cmd rc), w')
      | Raised e => (Err e, w')
      end
  end.

(** [os.path.exists(p)]: a string names a path of the file system, an
    integer a file descriptor. *)
Definition os_path_exists (E : env) (p : pyval) : M bool := λ w,
  match p with
  | PyStr s => (Ok (bool_decide (is_Some (fs w !! s))), w)
  | PyInt n => (Ok (fd_open E n), w)
  | PyBool b => (Ok (fd_open E (if b then 1 else 0)%Z), w)
  | _ => (Err TypeError, w)
  end.

(** [os.remove(p)]: removes a file, and fails on a directory, on a path that
    does not exist and on what is not a path. *)
Definition os_remove (p : pyval) : M unit := λ w,
  match p with
  | PyStr s =>
      match fs w !! s with
      | Some (File _) =>
          (Ok tt, {| fs := delete s (fs w); inv := inv w; trace := trace w ++ [EvRemove s] |})
      | Some Dir => (Err (OSError "Is a directory"), w)
      | None => (Err (OSError "No such file or directory"), w)
      end
  | _ => (Err TypeError, w)
  end.

(** [inventory.add_host(host)]: registers the host, without variables, unless
    it is registered already. *)
Definition add_host (host : pyval) : M unit := λ w,
  match host with
  | PyStr h =>
      match inv w !! h with
      | Some _ => (Ok tt, w)
      | None => (Ok tt, {| fs := fs w; inv := <[h := ∅]> (inv w); trace := trace w |})
      end
  | _ => (Err (AnsibleError "Invalid host name supplied"), w)
  end.

(** [inventory.set_variable(host, varname, value)]. *)
Definition set_variable (host : pyval) (varname : string) (value : pyval) : M unit := λ w,
  match host with
  | PyStr h =>
      match inv w !! h with
      | Some vars =>
          (Ok tt, {| fs := fs w; inv := <[h := <[varname := value]> vars]> (inv w);
                     trace := trace w |})
      | None => (Err (AnsibleError "Could not identify group or host"), w)
      end
  | _ => (Err (AnsibleError "Could not identify group or host"), w)
  end.

(** ** [InventoryModule] *)

Definition get_arc_machines (E : env) (resource_group subscription_id : pyval)
  : M (list pyval) :=
  let command :=
    [PyStr "az"; PyStr "connectedmachine"; PyStr "list";
     PyStr "--resource-group"; resource_group;
     PyStr "--output"; PyStr "json"] in
  let command :=
    if negb (is_none subscription_id)
    then command ++ [PyStr "--subscription"; subscription_id]
    else command in
  try_except_cpe
    (stdout <- subprocess_run E command ;;
     machines <- json_loads_or_raise E stdout ;;
     items <- lift (py_iter machines) ;;
     comprehension items (λ machine,
       name <- lift (py_getitem machine "name") ;;
       ret (PyDict {[ "name" := name ]})))
    (λ cmd rc,
       raise (Exception ("Failed to retrieve Azure Arc machines: " +:+ cpe_str E cmd rc))).

Definition generate_ssh_config (E : env)
    (vm_name resource_group local_user private_key_file config_file_path
     subscription_id : pyval) : M pyval :=
  let command :=
    [PyStr "az"; PyStr "ssh"; PyStr "config";
     PyStr "--vm-name"; vm_name;
     PyStr "--resource-group"; resource_group;
     PyStr "--local-user"; local_user;
     PyStr "--private-key-file"; private_key_file;
     PyStr "--file"; config_file_path] in
  let command :=
    if negb (is_none subscription_id)
    then command ++ [PyStr "--subscription"; subscription_id]
    else command in
  try_except_cpe
    (subprocess_run E command ;;;
     a <- lift (py_add resource_group (PyStr "-")) ;;
     b <- lift (py_add a vm_name) ;;
     c <- lift (py_add b (PyStr "-")) ;;
     lift (py_add c local_user))
    (λ cmd rc,
       raise (Exception ("Failed to generate SSH config: " +:+ cpe_str E cmd rc))).

(** [parse(self, inventory, loader, path, cache=True)].  The inventory is
    the one of the world the run starts in, the loader is behind
    [_read_config_data]; the call of the base class only stores them. *)
Definition parse (E : env) (path : string) (cache : bool) : M unit :=
  config_data <- lift (_read_config_data E path) ;;
  let subscription_id := dict_get config_data "subscription_id" PyNone in
  let resource_group := dict_get config_data "resource_group" PyNone in
  let username := dict_get config_data "username" PyNone in
  let config_file_path :=
    dict_get config_data "config_file_path" (PyStr "/tmp/azure_arc_ssh_config") in
  let private_key_file :=
    dict_get config_data "private_key_file" (PyStr (expanduser E "~/.ssh/id_rsa")) in
  if negb (truthy resource_group)
  then raise (ValueError "Azure Resource Group must be provided.")
  else
  if negb (truthy username)
  then raise (ValueError "Username for SSH connection must be provided.")
  else
  found <- os_path_exists E config_file_path ;;
  (if found then os_remove config_file_path else ret tt) ;;;
  machines <- get_arc_machines E resource_group subscription_id ;;
  for_each machines (λ machine,
    vm_name <- lift (py_getitem machine "name") ;;
    new_host_name <-
      generate_ssh_config E vm_name resource_group username private_key_file
        config_file_path subscription_id ;;
    host <- lift (py_getitem machine "name") ;;
    add_host host ;;;
    host <- lift (py_getitem machine "name") ;;
    set_variable host "ansible_host" new_host_name ;;;
    host <- lift (py_getitem machine "name") ;;
    set_variable host "ansible_connection" (PyStr "ssh") ;;;
    host <- lift (py_getitem machine "name") ;;
    set_variable host "ansible_ssh_common_args"
      (PyStr ("-F " +:+ py_format E config_file_path))).

(** * The vocabulary of the properties *)

(** The command lines, as the two methods build them. *)
Definition list_command (resource_group subscription_id : pyval) : list pyval :=
  let command :=
    [PyStr "az"; PyStr "connectedmachine"; PyStr "list";
     PyStr "--resource-group"; resource_group;
     PyStr "--output"; PyStr "json"] in
  if negb (is_none subscription_id)
  then command ++ [PyStr "--subscription"; subscription_id]
  else command.

Definition ssh_config_command
    (vm_name resource_group local_user private_key_file config_file_path
     subscription_id : pyval) : list pyval :=
  let command :=
    [PyStr "az"; PyStr "ssh"; PyStr "config";
     PyStr "--vm-name"; vm_name;
     PyStr "--resource-group"; resource_group;
     PyStr "--local-user"; local_user;
     PyStr "--private-key-file"; private_key_file;
     PyStr "--file"; config_file_path] in
  if negb (is_none subscription_id)
  then command ++ [PyStr "--subscription"; subscription_id]
  else command.

(** A logged command is the machine listing, or the generation of the SSH
    configuration of the machine [vm]. *)
Definition is_list_command (cmd : list string) : Prop :=
  ∃ rest, cmd = "az" :: "connectedmachine" :: "list" :: rest.

Definition is_ssh_config_command (vm : string) (cmd : list string) : Prop :=
  ∃ rest, cmd = "az" :: "ssh" :: "config" :: "--vm-name" :: vm :: rest.

Definition is_spawn (ev : event) : Prop :=
  match ev with
  | EvSpawn _ _ => True
  | EvRemove _ => False
  end.

(** The world after an external command was run in [w]. *)
Definition spawned (w : world) (cmd : list string) (o : outcome) (fs' : filesystem) : world :=
  {| fs := fs'; inv := inv w; trace := trace w ++ [EvSpawn cmd o] |}.

(** The machine records [get_arc_machines] returns for the values of the
    [name] fields. *)
Definition machine_of (name : pyval) : pyval := PyDict {[ "name" := name ]}.

(** The [name] fields of the items of the listing, in order, up to the first
    item without one. *)
Fixpoint names_of (items : list pyval) : result (list pyval) :=
  match items with
  | [] => Ok []
  | item :: rest =>
      match py_getitem item "name" with
      | Err e => Err e
      | Ok name =>
          match names_of rest with
          | Err e => Err e
          | Ok names => Ok (name :: names)
          end
      end
  end.

(** The names [get_arc_machines] reads in the output of the listing. *)
Definition listed (E : env) (stdout : string) : result (list pyval) :=
  match json_loads E stdout with
  | None => Err JSONDecodeError
  | Some machines =>
      match py_iter machines with
      | Err e => Err e
      | Ok items => names_of items
      end
  end.

(** The exception a command that did not exit with 0 ends in, once the
    [except] clause with the message [prefix] has seen it. *)
Definition failure (E : env) (prefix : string) (cmd : list string) (o : outcome)
  : option exn :=
  match o with
  | Exited rc _ =>
      if (rc =? 0)%Z then None else Some (Exception (prefix +:+ cpe_str E cmd rc))
  | Raised (CalledProcessError c rc) => Some (Exception (prefix +:+ cpe_str E c rc))
  | Raised e => Some e
  end.

(** An exception the [except CalledProcessError] clauses let through. *)
Definition not_cpe (e : exn) : Prop :=
  match e with
  | CalledProcessError _ _ => False
  | _ => True
  end.

(** The variables of a host once [parse] has set its three variables over
    the variables [old] it had. *)
Definition host_vars (new_host_name config_file_path : string)
    (old : gmap string pyval) : gmap string pyval :=
  <["ansible_ssh_common_args" := PyStr ("-F " +:+ config_file_path)]>
    (<["ansible_connection" := PyStr "ssh"]>
       (<["ansible_host" := PyStr new_host_name]> old)).

(** The body of the loop of [parse]. *)
Definition loop_body (E : env)
    (resource_group username private_key_file config_file_path subscription_id : pyval)
    (machine : pyval) : M unit :=
  vm_name <- lift (py_getitem machine "name") ;;
  new_host_name <-
    generate_ssh_config E vm_name resource_group username private_key_file
      config_file_path subscription_id ;;
  host <- lift (py_getitem machine "name") ;;
  add_host host ;;;
  host <- lift (py_getitem machine "name") ;;
  set_variable host "ansible_host" new_host_name ;;;
  host <- lift (py_getitem machine "name") ;;
  set_variable host "ansible_connection" (PyStr "ssh") ;;;
  host <- lift (py_getitem machine "name") ;;
  set_variable host "ansible_ssh_common_args"
    (PyStr ("-F " +:+ py_format E config_file_path)).

(** [os.path.exists] and [os.remove] at the start of [parse]. *)
Definition reset_output (E : env) (config_file_path : pyval) : M unit :=
  found <- os_path_exists E config_file_path ;;
  if found then os_remove config_file_path else ret tt.

(** The world after the file at [p] was removed in [w]. *)
Definition removed (p : string) (w : world) : world :=
  {| fs := delete p (fs w); inv := inv w; trace := trace w ++ [EvRemove p] |}.

(** The world after the host [n] got its variables. *)
Definition registered (g u p n : string) (w : world) : world :=
  {| fs := fs w;
     inv := <[n := host_vars (g +:+ "-" +:+ n +:+ "-" +:+ u) p (default ∅ (inv w !! n))]>
              (inv w);
     trace := trace w |}.

(** The event of a generation command for the machine [n] that exited
    with 0. *)
Definition generated (n : string) (ev : event) : Prop :=
  ∃ cmd out, ev = EvSpawn cmd (Exited 0 out) ∧ is_ssh_config_command n cmd.

(** The runs of the loop over the machines named [vs], from one world to
    another: it ends when the machines are exhausted, when a generation
    command is refused, or when one does not exit with 0. *)
Inductive loop_run (E : env) (rg user key cfp sub : pyval)
  : list pyval → world → result unit → world → Prop :=
  | loop_end w :
      loop_run E rg user key cfp sub [] w (Ok tt) w
  | loop_refused v vs w :
      as_strs (ssh_config_command v rg user key cfp sub) = None →
      loop_run E rg user key cfp sub (v :: vs) w (Err TypeError) w
  | loop_abort v vs w cmd o fs' e :
      as_strs (ssh_config_command v rg user key cfp sub) = Some cmd →
      spawn E (trace w) cmd (fs w) = (o, fs') →
      failure E "Failed to generate SSH config: " cmd o = Some e →
      loop_run E rg user key cfp sub (v :: vs) w (Err e) (spawned w cmd o fs')
  | loop_next n g u p vs w cmd out fs' r w' :
      rg = PyStr g → user = PyStr u → cfp = PyStr p →
      as_strs (ssh_config_command (PyStr n) rg user key cfp sub) = Some cmd →
      spawn E (trace w) cmd (fs w) = (Exited 0 out, fs') →
      loop_run E rg user key cfp sub vs
        (registered g u p n (spawned w cmd (Exited 0 out) fs')) r w' →
      loop_run E rg user key cfp sub (PyStr n :: vs) w r w'.

(** The options as [parse] reads them in the configuration document. *)
Definition subscription_id_of (cfg : gmap string pyval) : pyval :=
  dict_get cfg "subscription_id" PyNone.
Definition resource_group_of (cfg : gmap string pyval) : pyval :=
  dict_get cfg "resource_group" PyNone.
Definition username_of (cfg : gmap string pyval) : pyval :=
  dict_get cfg "username" PyNone.
Definition config_file_path_of (cfg : gmap string pyval) : pyval :=
  dict_get cfg "config_file_path" (PyStr "/tmp/azure_arc_ssh_config").
Definition private_key_file_of (E : env) (cfg : gmap string pyval) : pyval :=
  dict_get cfg "private_key_file" (PyStr (expanduser E "~/.ssh/id_rsa")).

(** A configuration that passes the validation of [parse]. *)
Definition valid_config (cfg : gmap string pyval) : Prop :=
  truthy (resource_group_of cfg) = true ∧ truthy (username_of cfg) = true.

(** The ways a run of [parse] on the document at [path] goes. *)
Inductive parse_run (E : env) (path : string) : world → result unit → world → Prop :=
  | parse_unreadable w e :
      _read_config_data E path = Err e →
      parse_run E path w (Err e) w
  | parse_no_resource_group w cfg :
      _read_config_data E path = Ok cfg →
      truthy (resource_group_of cfg) = false →
      parse_run E path w (Err (ValueError "Azure Resource Group must be provided.")) w
  | parse_no_username w cfg :
      _read_config_data E path = Ok cfg →
      truthy (resource_group_of cfg) = true →
      truthy (username_of cfg) = false →
      parse_run E path w (Err (ValueError "Username for SSH connection must be provided.")) w
  | parse_reset_failed w cfg e w1 :
      _read_config_data E path = Ok cfg → valid_config cfg →
      reset_output E (config_file_path_of cfg) w = (Err e, w1) →
      parse_run E path w (Err e) w1
  | parse_list_refused w cfg w1 :
      _read_config_data E path = Ok cfg → valid_config cfg →
      reset_output E (config_file_path_of cfg) w = (Ok tt, w1) →
      as_strs (list_command (resource_group_of cfg) (subscription_id_of cfg)) = None →
      parse_run E path w (Err TypeError) w1
  | parse_list_failed w cfg w1 cmd o fs2 e :
      _read_config_data E path = Ok cfg → valid_config cfg →
      reset_output E (config_file_path_of cfg) w = (Ok tt, w1) →
      as_strs (list_command (resource_group_of cfg) (subscription_id_of cfg)) = Some cmd →
      spawn E (trace w1) cmd (fs w1) = (o, fs2) →
      failure E "Failed to retrieve Azure Arc machines: " cmd o = Some e →
      parse_run E path w (Err e) (spawned w1 cmd o fs2)
  | parse_list_unusable w cfg w1 cmd stdout fs2 e :
      _read_config_data E path = Ok cfg → valid_config cfg →
      reset_output E (config_file_path_of cfg) w = (Ok tt, w1) →
      as_strs (list_command (resource_group_of cfg) (subscription_id_of cfg)) = Some cmd →
      spawn E (trace w1) cmd (fs w1) = (Exited 0 stdout, fs2) →
      listed E stdout = Err e →
      parse_run E path w (Err e) (spawned w1 cmd (Exited 0 stdout) fs2)
  | parse_listed w cfg w1 cmd stdout fs2 names r w' :
      _read_config_data E path = Ok cfg → valid_config cfg →
      reset_output E (config_file_path_of cfg) w = (Ok tt, w1) →
      as_strs (list_command (resource_group_of cfg) (subscription_id_of cfg)) = Some cmd →
      spawn E (trace w1) cmd (fs w1) = (Exited 0 stdout, fs2) →
      listed E stdout = Ok names →
      loop_run E (resource_group_of cfg) (username_of cfg) (private_key_file_of E cfg)
        (config_file_path_of cfg) (subscription_id_of cfg)
        names (spawned w1 cmd (Exited 0 stdout) fs2) r w' →
      parse_run E path w r w'.

(** The same run with another configuration document. *)
Definition with_config (E : env) (cfg : gmap string pyval) : env :=
  {| _read_config_data := λ _, Ok cfg;
     expanduser := expanduser E;
     fd_open := fd_open E;
     spawn := spawn E;
     json_loads := json_loads E;
     cpe_str := cpe_str E;
     str_other := str_other E |}.

(** A machine record of the listing: a mapping with the name of the machine
    under [name]. *)
Definition machine_record (rec : pyval) (name : string) : Prop :=
  ∃ d, rec = PyDict d ∧ d !! "name" = Some (PyStr name).

(** The three variables of a host, and nothing else. *)
Definition parse_vars (resource_group vm_name username config_file_path : string)
  : gmap string pyval :=
  {[ "ansible_host" := PyStr (resource_group +:+ "-" +:+ vm_name +:+ "-" +:+ username);
     "ansible_connection" := PyStr "ssh";
     "ansible_ssh_common_args" := PyStr ("-F " +:+ config_file_path) ]}.

(** C1 as the specification states it: whenever the listing command returned
    N machine records (with names that are not empty, distinct and not yet in
    the inventory), the run registers the N names. *)
Definition every_listed_machine_registered : Prop :=
  ∀ (E : env) (path : string) (cache : bool) (fs0 : filesystem) (inv0 : inventory)
    (r : result unit) (w' : world)
    (cmd : list string) (out : string) (recs : list pyval) (names : list string),
    parse E path cache (start fs0 inv0) = (r, w') →
    EvSpawn cmd (Exited 0 out) ∈ trace w' →
    is_list_command cmd →
    json_loads E out = Some (PyList recs) →
    Forall2 machine_record recs names →
    NoDup names →
    (∀ n, n ∈ names → n ≠ "" ∧ inv0 !! n = None) →
    dom (inv w') = dom inv0 ∪ list_to_set names
    ∧ size (dom (inv w')) = size (dom inv0) + length recs.

(** C2 as the specification states it: after a run that completes, every
    machine of the listing is a host with exactly the three variables. *)
Definition every_registered_host_has_three_variables : Prop :=
  ∀ (E : env) (path : string) (cache : bool) (fs0 : filesystem) (inv0 : inventory)
    (w' : world) (cfg : gmap string pyval)
    (cmd : list string) (out : string) (recs : list pyval) (names : list string)
    (h : string),
    _read_config_data E path = Ok cfg →
    parse E path cache (start fs0 inv0) = (Ok tt, w') →
    EvSpawn cmd (Exited 0 out) ∈ trace w' →
    is_list_command cmd →
    json_loads E out = Some (PyList recs) →
    Forall2 machine_record recs names →
    h ∈ names →
    ∃ g u p,
      resource_group_of cfg = PyStr g ∧ username_of cfg = PyStr u
      ∧ config_file_path_of cfg = PyStr p
      ∧ inv w' !! h =
          Some {[ "ansible_host" := PyStr (g +:+ "-" +:+ h +:+ "-" +:+ u);
                  "ansible_connection" := PyStr "ssh";
                  "ansible_ssh_common_args" := PyStr ("-F " +:+ p) ]}.

(** ** A resource group with two machines *)

(** The configuration names the resource group [rg] and the user [admin];
    the listing answers with the machines [web1] and [db1]; a stale output
    file is on disk.  The listing command exits with [list_rc], the
    generation command exits with 1 for the machine [failing] and with 0 for
    the others, appending to the output file. *)
Definition demo_config : gmap string pyval :=
  {[ "resource_group" := PyStr "rg"; "username" := PyStr "admin" ]}.

Definition demo_records : list pyval :=
  [PyDict {[ "name" := PyStr "web1"; "location" := PyStr "westeurope" ]};
   PyDict {[ "name" := PyStr "db1" ]}].

Definition demo_fs : filesystem :=
  {[ "/tmp/azure_arc_ssh_config" := File "Host stale" ]}.

Definition demo_list_command : list string :=
  ["az"; "connectedmachine"; "list"; "--resource-group"; "rg"; "--output"; "json"].

Definition demo_ssh_config_command (vm : string) : list string :=
  ["az"; "ssh"; "config"; "--vm-name"; vm; "--resource-group"; "rg";
   "--local-user"; "admin"; "--private-key-file"; "/home/ops/.ssh/id_rsa";
   "--file"; "/tmp/azure_arc_ssh_config"].

Definition demo_spawn (list_rc : Z) (failing : string)
    (tr : list event) (cmd : list string) (fs0 : filesystem) : outcome * filesystem :=
  match cmd with
  | "az" :: "connectedmachine" :: _ => (Exited list_rc "machines", fs0)
  | "az" :: "ssh" :: "config" :: "--vm-name" :: vm :: _ =>
      if String.eqb vm failing then (Exited 1 "", fs0)
      else
        (Exited 0 "",
         <["/tmp/azure_arc_ssh_config" :=
             File (match fs0 !! "/tmp/azure_arc_ssh_config" with
                   | Some (File c) => c +:+ "Host " +:+ vm
                   | _ => "Host " +:+ vm
                   end)]> fs0)
  | _ => (Raised (OSError "No such file or directory"), fs0)
  end.

Definition demo_env (cfg : gmap string pyval) (list_rc : Z) (failing : string) : env :=
  {| _read_config_data := λ _, Ok cfg;
     expanduser := λ _, "/home/ops/.ssh/id_rsa";
     fd_open := λ _, false;
     spawn := demo_spawn list_rc failing;
     json_loads := λ s,
       if String.eqb s "machines" then Some (PyList demo_records) else None;
     cpe_str := λ _ _, "returned non-zero exit status";
     str_other := λ _, "" |}.

(** The world a run on [hosts.azure_arc.yml] ends in. *)
Definition demo_end (cfg : gmap string pyval) (list_rc : Z) (failing : string) : world :=
  (parse (demo_env cfg list_rc failing) "hosts.azure_arc.yml" true (start demo_fs ∅)).2.

(** ** Command lines on strings *)

(** An optional string of the configuration, as the value [parse] reads. *)
Definition opt_str (s : option string) : pyval :=
  match s with
  | Some x => PyStr x
  | None => PyNone
  end.

(** The arguments both commands end with when a subscription is given. *)
Definition subscription_args (subscription_id : option string) : list string :=
  match subscription_id with
  | Some s => ["--subscription"; s]
  | None => []
  end.

(** The command line of [get_arc_machines] for a resource group. *)
Definition az_list_command (resource_group : string) (subscription_id : option string)
  : list string :=
  ["az"; "connectedmachine"; "list"; "--resource-group"; resource_group;
   "--output"; "json"] ++ subscription_args subscription_id.

(** The command line of [generate_ssh_config] for a machine. *)
Definition az_ssh_config_command
    (vm_name resource_group local_user private_key_file config_file_path : string)
    (subscription_id : option string) : list string :=
  ["az"; "ssh"; "config"; "--vm-name"; vm_name; "--resource-group"; resource_group;
   "--local-user"; local_user; "--private-key-file"; private_key_file;
   "--file"; config_file_path] ++ subscription_args subscription_id.

(** An item of the listing that has a [name], whatever its value. *)
Definition has_name (item : pyval) : Prop :=
  ∃ d v, item = PyDict d ∧ d !! "name" = Some v.

(** The variables [parse] sets. *)
Definition parse_variable (k : string) : Prop :=
  k = "ansible_host" ∨ k = "ansible_connection" ∨ k = "ansible_ssh_common_args".

(** ** Variations on the resource group with two machines *)

(** The same environment with another [json.loads], or with other
    commands. *)
Definition with_json (E : env) (loads : string → option pyval) : env :=
  {| _read_config_data := _read_config_data E;
     expanduser := expanduser E;
     fd_open := fd_open E;
     spawn := spawn E;
     json_loads := loads;
     cpe_str := cpe_str E;
     str_other := str_other E |}.

Definition with_spawn (E : env)
    (run : list event → list string → filesystem → outcome * filesystem) : env :=
  {| _read_config_data := _read_config_data E;
     expanduser := expanduser E;
     fd_open := fd_open E;
     spawn := run;
     json_loads := json_loads E;
     cpe_str := cpe_str E;
     str_other := str_other E |}.

(** A listing whose second item has no name, a listing that names [web1]
    twice, and a machine without the command line tool. *)
Definition demo_nameless : list pyval :=
  [PyDict {[ "name" := PyStr "web1" ]}; PyDict {[ "id" := PyStr "42" ]}].

Definition demo_twice : list pyval :=
  [PyDict {[ "name" := PyStr "web1" ]}; PyDict {[ "name" := PyStr "web1" ]}].

Definition demo_no_az (tr : list event) (cmd : list string) (fs0 : filesystem)
  : outcome * filesystem :=
  (Raised (OSError "No such file or directory: 'az'"), fs0).

(** Commands that print the listing and write nothing. *)
Definition demo_read_only (tr : list event) (cmd : list string) (fs0 : filesystem)
  : outcome * filesystem :=
  (Exited 0 "machines", fs0).

(** The run on [hosts.azure_arc.yml] in an environment, from an inventory. *)
Definition demo_run (E : env) (inv0 : inventory) : result unit * world :=
  parse E "hosts.azure_arc.yml" true (start demo_fs inv0).

(** * Properties *)

(** ** Strings *)

Section Strings.

Lemma append_cons (x : Ascii.ascii) (a b : string) : String x a +:+ b = String x (a +:+ b).
Proof. reflexivity. Qed.

Lemma append_assoc (a b c : string) : (a +:+ b) +:+ c = a +:+ b +:+ c.
Proof.
  induction a as [|x a IH]; [done |].
  by rewrite !append_cons, IH.
Qed.

Lemma length_append (a b : string) :
  String.length (a +:+ b) = String.length a + String.length b.
Proof.
  induction a as [|x a IH]; [done |].
  rewrite append_cons. simpl. by rewrite IH.
Qed.

Lemma substring_whole (s : string) : String.substring 0 (String.length s) s = s.
Proof. induction s as [|x s IH]; simpl; [done | by rewrite IH]. Qed.

Lemma substring_skip (pre s : string) (m : nat) :
  String.substring (String.length pre) m (pre +:+ s) = String.substring 0 m s.
Proof.
  induction pre as [|x pre IH]; [done |].
  rewrite append_cons. simpl. apply IH.
Qed.

(** A string is what comes before position [k] followed by the rest. *)
Lemma substring_split (s : string) (k : nat) :
  k ≤ String.length s →
  s = String.substring 0 k s +:+ String.substring k (String.length s - k) s.
Proof.
  revert k. induction s as [|x s IH]; intros k Hk; simpl in *.
  - by destruct k.
  - destruct k as [|k]; simpl.
    + by rewrite substring_whole.
    + rewrite append_cons. f_equal. apply IH. lia.
Qed.

Lemma endswith_spec (s suffix : string) :
  endswith s suffix = true ↔ ∃ pre, s = pre +:+ suffix.
Proof.
  unfold endswith. rewrite andb_true_iff, Nat.leb_le, String.eqb_eq. split.
  - intros [Hle Hsub].
    exists (String.substring 0 (String.length s - String.length suffix) s).
    pose proof (substring_split s (String.length s - String.length suffix)) as Hs.
    replace (String.length s - (String.length s - String.length suffix))
      with (String.length suffix) in Hs by lia.
    rewrite Hsub in Hs. apply Hs. lia.
  - intros [pre ->]. rewrite length_append. split; [lia |].
    replace (String.length pre + String.length suffix - String.length suffix)
      with (String.length pre) by lia.
    by rewrite substring_skip, substring_whole.
Qed.

End Strings.

(** ** [verify_file] *)

(** C7: [verify_file] accepts a path exactly when it ends in
    ["azure_arc.yaml"] or in ["azure_arc.yml"], and refuses every other
    path. *)
Theorem verify_file_iff (path : string) :
  (verify_file path = true ↔
     ∃ pre, path = pre +:+ "azure_arc.yaml" ∨ path = pre +:+ "azure_arc.yml")
  ∧ (verify_file path = false ↔
     ¬ ∃ pre, path = pre +:+ "azure_arc.yaml" ∨ path = pre +:+ "azure_arc.yml").
Proof.
  assert (Hiff : verify_file path = true ↔
     ∃ pre, path = pre +:+ "azure_arc.yaml" ∨ path = pre +:+ "azure_arc.yml").
  { unfold verify_file, endswith_any. cbn [existsb].
    rewrite orb_false_r, orb_true_iff, !endswith_spec. split.
    - intros [[pre ->] | [pre ->]]; exists pre; auto.
    - intros [pre [-> | ->]]; [left | right]; by exists pre. }
  split; [done |].
  rewrite <- Hiff. by destruct (verify_file path).
Qed.

(** ** The steps of a run *)

Section Steps.

Variable E : env.

Lemma py_getitem_not_cpe (v : pyval) (key : string) (e : exn) :
  py_getitem v key = Err e → not_cpe e.
Proof.
  destruct v; simpl; try (intros [= <-]; exact I).
  destruct (d !! key); intros [= <-]; exact I.
Qed.

Lemma names_of_not_cpe (items : list pyval) (e : exn) :
  names_of items = Err e → not_cpe e.
Proof.
  induction items as [|item rest IH]; simpl; [done |].
  destruct (py_getitem item "name") eqn:Hitem.
  - destruct (names_of rest); [done |]. intros [= <-]. by apply IH.
  - intros [= <-]. by eapply py_getitem_not_cpe.
Qed.

Lemma listed_not_cpe (stdout : string) (e : exn) :
  listed E stdout = Err e → not_cpe e.
Proof.
  unfold listed. destruct (json_loads E stdout) as [machines|]; [| by intros [= <-]].
  destruct (py_iter machines) as [items|e'] eqn:Hiter.
  - apply names_of_not_cpe.
  - intros [= <-]. destruct machines; simplify_eq/=; exact I.
Qed.

(** The list comprehension of [get_arc_machines] has no side effect. *)
Lemma comprehension_names (items : list pyval) (w : world) :
  comprehension items (λ machine,
    name <- lift (py_getitem machine "name") ;;
    ret (PyDict {[ "name" := name ]})) w
  = (match names_of items with
     | Ok names => Ok (machine_of <$> names)
     | Err e => Err e
     end, w).
Proof.
  induction items as [|item rest IH]; [done |].
  cbn [comprehension names_of]. unfold bind at 1. unfold bind at 1. unfold lift at 1.
  destruct (py_getitem item "name") as [name|e]; [| done].
  unfold ret at 1. unfold bind at 1. rewrite IH.
  by destruct (names_of rest).
Qed.

(** A run of [get_arc_machines]: the command is refused, or it is run once
    and its outcome decides. *)
Lemma get_arc_machines_run (resource_group subscription_id : pyval) (w : world) :
  get_arc_machines E resource_group subscription_id w =
    match as_strs (list_command resource_group subscription_id) with
    | None => (Err TypeError, w)
    | Some cmd =>
        let '(o, fs') := spawn E (trace w) cmd (fs w) in
        (match failure E "Failed to retrieve Azure Arc machines: " cmd o with
         | Some e => Err e
         | None =>
             match o with
             | Exited _ stdout =>
                 match listed E stdout with
                 | Ok names => Ok (machine_of <$> names)
                 | Err e => Err e
                 end
             | Raised e => Err e
             end
         end, spawned w cmd o fs')
    end.
Proof.
  unfold get_arc_machines. fold (list_command resource_group subscription_id).
  unfold try_except_cpe, bind at 1, subprocess_run.
  destruct (as_strs (list_command resource_group subscription_id)) as [cmd|]; [| done].
  destruct (spawn E (trace w) cmd (fs w)) as [o fs'].
  fold (spawned w cmd o fs'). unfold failure.
  destruct o as [rc stdout | e].
  - destruct (rc =? 0)%Z; [| done].
    unfold json_loads_or_raise, listed, bind, lift.
    destruct (json_loads E stdout) as [machines|]; [| done].
    unfold ret at 1.
    destruct (py_iter machines) as [items|e] eqn:Hiter.
    + rewrite comprehension_names.
      destruct (names_of items) as [names|e] eqn:Hnames; [done |].
      apply names_of_not_cpe in Hnames. by destruct e.
    + destruct machines; simplify_eq/=; done.
  - by destruct e.
Qed.

End Steps.

(** ** One machine *)

Section AsStrs.

Lemma as_strs_cons (v : pyval) (l : list pyval) (cmd : list string) :
  as_strs (v :: l) = Some cmd ↔
  ∃ s rest, v = PyStr s ∧ as_strs l = Some rest ∧ cmd = s :: rest.
Proof.
  split.
  - destruct v; simpl; try done.
    destruct (as_strs l) as [rest|]; [| done].
    intros [= <-]. by eexists _, _.
  - intros (s & rest & -> & Hl & ->). simpl. by rewrite Hl.
Qed.

Lemma as_strs_cons_str (s : string) (l : list pyval) (cmd : list string) :
  as_strs (PyStr s :: l) = Some cmd ↔ ∃ rest, as_strs l = Some rest ∧ cmd = s :: rest.
Proof.
  rewrite as_strs_cons. split.
  - intros (s' & rest & [= <-] & Hl & ->). by exists rest.
  - intros (rest & Hl & ->). by exists s, rest.
Qed.

(** The command of [generate_ssh_config] is accepted only when the machine
    name and the configuration values in it are strings. *)
Lemma as_strs_ssh_config_command (vm rg user key cfp sub : pyval) (cmd : list string) :
  as_strs (ssh_config_command vm rg user key cfp sub) = Some cmd →
  ∃ n g u k p, vm = PyStr n ∧ rg = PyStr g ∧ user = PyStr u ∧ key = PyStr k
               ∧ cfp = PyStr p ∧ is_ssh_config_command n cmd.
Proof.
  unfold ssh_config_command. intros H.
  assert (∃ tail, as_strs
    ([PyStr "az"; PyStr "ssh"; PyStr "config"; PyStr "--vm-name"; vm;
      PyStr "--resource-group"; rg; PyStr "--local-user"; user;
      PyStr "--private-key-file"; key; PyStr "--file"; cfp] ++ tail) = Some cmd)
    as [tail Ht].
  { destruct (negb (is_none sub)); [by eexists | exists []; by rewrite app_nil_r]. }
  clear H. cbn [app] in Ht.
  apply as_strs_cons_str in Ht as (r1 & Ht & ->).
  apply as_strs_cons_str in Ht as (r2 & Ht & ->).
  apply as_strs_cons_str in Ht as (r3 & Ht & ->).
  apply as_strs_cons_str in Ht as (r4 & Ht & ->).
  apply as_strs_cons in Ht as (n & r5 & -> & Ht & ->).
  apply as_strs_cons_str in Ht as (r6 & Ht & ->).
  apply as_strs_cons in Ht as (g & r7 & -> & Ht & ->).
  apply as_strs_cons_str in Ht as (r8 & Ht & ->).
  apply as_strs_cons in Ht as (u & r9 & -> & Ht & ->).
  apply as_strs_cons_str in Ht as (r10 & Ht & ->).
  apply as_strs_cons in Ht as (k & r11 & -> & Ht & ->).
  apply as_strs_cons_str in Ht as (r12 & Ht & ->).
  apply as_strs_cons in Ht as (p & r13 & -> & Ht & ->).
  exists n, g, u, k, p. repeat split; try done. by eexists.
Qed.

(** The command of [get_arc_machines] is accepted only when the resource
    group is a string. *)
Lemma as_strs_list_command (rg sub : pyval) (cmd : list string) :
  as_strs (list_command rg sub) = Some cmd →
  (∃ g, rg = PyStr g) ∧ is_list_command cmd.
Proof.
  unfold list_command. intros H.
  assert (∃ tail, as_strs
    ([PyStr "az"; PyStr "connectedmachine"; PyStr "list";
      PyStr "--resource-group"; rg; PyStr "--output"; PyStr "json"] ++ tail) = Some cmd)
    as [tail Ht].
  { destruct (negb (is_none sub)); [by eexists | exists []; by rewrite app_nil_r]. }
  clear H. cbn [app] in Ht.
  apply as_strs_cons_str in Ht as (r1 & Ht & ->).
  apply as_strs_cons_str in Ht as (r2 & Ht & ->).
  apply as_strs_cons_str in Ht as (r3 & Ht & ->).
  apply as_strs_cons_str in Ht as (r4 & Ht & ->).
  apply as_strs_cons in Ht as (g & r5 & -> & Ht & ->).
  split; by eexists.
Qed.

Lemma ssh_config_command_vm (n m : string) (cmd : list string) :
  is_ssh_config_command n cmd → is_ssh_config_command m cmd → n = m.
Proof. intros [r1 ->] [r2 [= ->]]. done. Qed.

Lemma ssh_config_not_list (n : string) (cmd : list string) :
  is_ssh_config_command n cmd → ¬ is_list_command cmd.
Proof. intros [r1 ->] [r2 [=]]. Qed.

End AsStrs.

Section Machine.

Variable E : env.

(** A run of [generate_ssh_config] on strings: the command is run once;
    when it exits with 0 the alias is returned. *)
Lemma generate_ssh_config_run (n g u k p : string) (sub : pyval)
    (cmd : list string) (w : world) :
  as_strs (ssh_config_command (PyStr n) (PyStr g) (PyStr u) (PyStr k) (PyStr p) sub)
    = Some cmd →
  generate_ssh_config E (PyStr n) (PyStr g) (PyStr u) (PyStr k) (PyStr p) sub w =
    let '(o, fs') := spawn E (trace w) cmd (fs w) in
    (match failure E "Failed to generate SSH config: " cmd o with
     | Some e => Err e
     | None => Ok (PyStr (g +:+ "-" +:+ n +:+ "-" +:+ u))
     end, spawned w cmd o fs').
Proof.
  intros Hcmd. unfold generate_ssh_config.
  fold (ssh_config_command (PyStr n) (PyStr g) (PyStr u) (PyStr k) (PyStr p) sub).
  unfold try_except_cpe, bind at 1, subprocess_run. rewrite Hcmd.
  destruct (spawn E (trace w) cmd (fs w)) as [o fs'].
  fold (spawned w cmd o fs'). unfold failure.
  destruct o as [rc stdout | e].
  - destruct (rc =? 0)%Z; [| done].
    unfold bind, lift. cbn [py_add]. by rewrite !append_assoc.
  - by destruct e.
Qed.

Lemma generate_ssh_config_refused (vm rg user key cfp sub : pyval) (w : world) :
  as_strs (ssh_config_command vm rg user key cfp sub) = None →
  generate_ssh_config E vm rg user key cfp sub w = (Err TypeError, w).
Proof.
  intros Hcmd. unfold generate_ssh_config.
  fold (ssh_config_command vm rg user key cfp sub).
  unfold try_except_cpe, bind at 1, subprocess_run. by rewrite Hcmd.
Qed.

Lemma register_host (n : string) (alias : pyval) (args : pyval) (w : world) :
  (add_host (PyStr n) ;;;
   set_variable (PyStr n) "ansible_host" alias ;;;
   set_variable (PyStr n) "ansible_connection" (PyStr "ssh") ;;;
   set_variable (PyStr n) "ansible_ssh_common_args" args) w
  = (Ok tt,
     {| fs := fs w;
        inv := <[n := <["ansible_ssh_common_args" := args]>
                        (<["ansible_connection" := PyStr "ssh"]>
                           (<["ansible_host" := alias]> (default ∅ (inv w !! n))))]>
                 (inv w);
        trace := trace w |}).
Proof.
  unfold bind, add_host, set_variable.
  destruct (inv w !! n) as [old|] eqn:Hn; cbn [fs inv trace];
    repeat (first [rewrite Hn | rewrite lookup_insert_eq]; cbn [fs inv trace]);
    by rewrite !insert_insert_eq.
Qed.

(** One turn of the loop, for a machine record built by
    [get_arc_machines]: the generation command is refused, or it is run and
    the host is registered when it exits with 0. *)
Lemma loop_body_refused (v rg user key cfp sub : pyval) (w : world) :
  as_strs (ssh_config_command v rg user key cfp sub) = None →
  loop_body E rg user key cfp sub (machine_of v) w = (Err TypeError, w).
Proof.
  intros Hcmd. unfold loop_body, machine_of, bind at 1, lift at 1. cbn [py_getitem].
  rewrite lookup_singleton_eq. unfold bind at 1.
  by rewrite generate_ssh_config_refused.
Qed.

Lemma loop_body_run (n g u k p : string) (sub : pyval) (cmd : list string) (w : world) :
  as_strs (ssh_config_command (PyStr n) (PyStr g) (PyStr u) (PyStr k) (PyStr p) sub)
    = Some cmd →
  loop_body E (PyStr g) (PyStr u) (PyStr k) (PyStr p) sub (machine_of (PyStr n)) w =
    let '(o, fs') := spawn E (trace w) cmd (fs w) in
    match failure E "Failed to generate SSH config: " cmd o with
    | Some e => (Err e, spawned w cmd o fs')
    | None => (Ok tt, registered g u p n (spawned w cmd o fs'))
    end.
Proof.
  intros Hcmd. unfold loop_body, machine_of, bind at 1, lift at 1. cbn [py_getitem].
  rewrite lookup_singleton_eq. unfold bind at 1.
  rewrite (generate_ssh_config_run _ _ _ _ _ _ _ _ Hcmd).
  destruct (spawn E (trace w) cmd (fs w)) as [o fs'].
  destruct (failure E "Failed to generate SSH config: " cmd o) as [e|]; [done |].
  unfold bind at 1, lift at 1. cbn [py_getitem py_format].
  set (w1 := spawned w cmd o fs').
  pose proof (register_host n (PyStr (g +:+ "-" +:+ n +:+ "-" +:+ u))
                (PyStr ("-F " +:+ p)) w1) as Hreg.
  unfold bind, lift in Hreg |- *.
  destruct (add_host (PyStr n) w1) as [[[]|e1] w2]; [| done].
  cbv beta iota.
  destruct (set_variable (PyStr n) "ansible_host" _ w2) as [[[]|e2] w3]; [| done].
  cbv beta iota.
  destruct (set_variable (PyStr n) "ansible_connection" _ w3) as [[[]|e3] w4]; [| done].
  exact Hreg.
Qed.

End Machine.

(** ** The loop over the machines *)

Lemma host_vars_again (a p : string) (old : gmap string pyval) :
  host_vars a p (host_vars a p old) = host_vars a p old.
Proof.
  unfold host_vars. apply map_eq. intros i.
  rewrite !lookup_insert. repeat case_decide; done.
Qed.

Section Loop.

Variable E : env.

Lemma failure_none (prefix : string) (cmd : list string) (o : outcome) :
  failure E prefix cmd o = None → ∃ out, o = Exited 0 out.
Proof.
  destruct o as [rc out | e]; simpl.
  - destruct (rc =? 0)%Z eqn:Hrc; [| done]. apply Z.eqb_eq in Hrc as ->. by eexists.
  - by destruct e.
Qed.

Lemma for_each_loop_run (rg user key cfp sub : pyval)
    (vs : list pyval) (w : world) (r : result unit) (w' : world) :
  for_each (machine_of <$> vs) (loop_body E rg user key cfp sub) w = (r, w') →
  loop_run E rg user key cfp sub vs w r w'.
Proof.
  revert w. induction vs as [|v vs IH]; intros w Hrun.
  - injection Hrun as <- <-. constructor.
  - cbn [fmap list_fmap for_each] in Hrun. unfold bind in Hrun.
    destruct (as_strs (ssh_config_command v rg user key cfp sub)) as [cmd|] eqn:Hcmd.
    + destruct (as_strs_ssh_config_command _ _ _ _ _ _ _ Hcmd)
        as (n & g & u & k & p & -> & -> & -> & -> & -> & _).
      rewrite (loop_body_run E _ _ _ _ _ _ _ _ Hcmd) in Hrun.
      destruct (spawn E (trace w) cmd (fs w)) as [o fs'] eqn:Hspawn.
      destruct (failure E "Failed to generate SSH config: " cmd o) as [e|] eqn:Hfail.
      * injection Hrun as <- <-. by eapply loop_abort.
      * destruct (failure_none _ _ _ Hfail) as [out ->].
        eapply loop_next; eauto.
    + rewrite (loop_body_refused E _ _ _ _ _ _ _ Hcmd) in Hrun.
      injection Hrun as <- <-. by constructor.
Qed.

(** What a run of the loop leaves: the machines [done] got registered,
    each after its generation command exited with 0, and nothing else
    changed in the inventory; after an error the loop stopped at the first
    of the remaining machines, with at most the event of its command. *)
Lemma loop_run_outcome (rg user key cfp sub : pyval)
    (vs : list pyval) (w : world) (r : result unit) (w' : world) :
  loop_run E rg user key cfp sub vs w r w' →
  ∃ (done : list string) (rest : list pyval) (evs tail : list event),
    vs = (PyStr <$> done) ++ rest
    ∧ (∀ h, h ∉ done → inv w' !! h = inv w !! h)
    ∧ (∀ h, h ∈ done → ∃ g u p,
          rg = PyStr g ∧ user = PyStr u ∧ cfp = PyStr p ∧
          inv w' !! h =
            Some (host_vars (g +:+ "-" +:+ h +:+ "-" +:+ u) p (default ∅ (inv w !! h))))
    ∧ trace w' = trace w ++ evs ++ tail
    ∧ Forall2 generated done evs
    ∧ match r with
      | Ok _ => rest = [] ∧ tail = []
      | Err e =>
          ∃ v rest', rest = v :: rest' ∧
            (tail = [] ∨
             ∃ n cmd o g u p,
               v = PyStr n ∧ is_ssh_config_command n cmd ∧
               rg = PyStr g ∧ user = PyStr u ∧ cfp = PyStr p ∧
               tail = [EvSpawn cmd o] ∧
               failure E "Failed to generate SSH config: " cmd o = Some e)
      end.
Proof.
  induction 1 as [w | v vs w Hcmd | v vs w cmd o fs' e Hcmd Hspawn Hfail
                 | n g u p vs w cmd out fs' r w' -> -> -> Hcmd Hspawn Hrun IH].
  - exists [], [], [], []. rewrite !app_nil_r. repeat split; try done.
    intros h Hh. by apply elem_of_nil in Hh.
  - exists [], (v :: vs), [], []. rewrite !app_nil_r. repeat split; try done.
    + intros h Hh. by apply elem_of_nil in Hh.
    + exists v, vs. auto.
  - destruct (as_strs_ssh_config_command _ _ _ _ _ _ _ Hcmd)
      as (n & g & u & k & p & -> & Hg & Hu & _ & Hp & Hn).
    exists [], (PyStr n :: vs), [], [EvSpawn cmd o]. repeat split; try done.
    + intros h Hh. by apply elem_of_nil in Hh.
    + exists (PyStr n), vs. split; [done |]. right. by exists n, cmd, o, g, u, p.
  - destruct (as_strs_ssh_config_command _ _ _ _ _ _ _ Hcmd)
      as (n' & _ & _ & _ & _ & [= <-] & _ & _ & _ & _ & Hn).
    destruct IH as (done & rest & evs & tail & -> & Hout & Hin & Htrace & Hevs & Hr).
    exists (n :: done), rest, (EvSpawn cmd (Exited 0 out) :: evs), tail.
    cbn [registered spawned inv trace] in Hout, Hin, Htrace.
    split; [done |]. split; [| split; [| split; [| split]]].
    + intros h Hh. apply not_elem_of_cons in Hh as [Hne Hh].
      rewrite (Hout h Hh). by rewrite lookup_insert_ne.
    + intros h Hh. exists g, u, p. repeat split.
      destruct (decide (h ∈ done)) as [Hd | Hd].
      * destruct (Hin h Hd) as (g' & u' & p' & [= <-] & [= <-] & [= <-] & ->).
        f_equal. destruct (decide (n = h)) as [-> | Hne].
        -- rewrite lookup_insert_eq. apply host_vars_again.
        -- by rewrite lookup_insert_ne.
      * apply elem_of_cons in Hh as [-> | Hh]; [| done].
        rewrite (Hout n Hd). by rewrite lookup_insert_eq.
    + rewrite Htrace. by rewrite <- !app_assoc.
    + constructor; [| done]. by exists cmd, out.
    + done.
Qed.

End Loop.

(** ** A run of [parse] *)

Section Parse.

Variable E : env.

Lemma parse_parse_run (path : string) (cache : bool) (w : world)
    (r : result unit) (w' : world) :
  parse E path cache w = (r, w') → parse_run E path w r w'.
Proof.
  unfold parse, bind at 1, lift at 1.
  destruct (_read_config_data E path) as [cfg|e] eqn:Hcfg;
    [| intros [= <- <-]; by constructor].
  fold (subscription_id_of cfg) (resource_group_of cfg) (username_of cfg)
       (config_file_path_of cfg) (private_key_file_of E cfg).
  destruct (truthy (resource_group_of cfg)) eqn:Hrg; cbn [negb];
    [| intros [= <- <-]; by eapply parse_no_resource_group].
  destruct (truthy (username_of cfg)) eqn:Huser; cbn [negb];
    [| intros [= <- <-]; by eapply parse_no_username].
  assert (Hvalid : valid_config cfg) by done.
  intros Hrun.
  assert (Hrun' :
    match reset_output E (config_file_path_of cfg) w with
    | (Ok _, w1) =>
        match get_arc_machines E (resource_group_of cfg) (subscription_id_of cfg) w1 with
        | (Ok machines, w2) =>
            for_each machines
              (loop_body E (resource_group_of cfg) (username_of cfg)
                 (private_key_file_of E cfg) (config_file_path_of cfg)
                 (subscription_id_of cfg)) w2
        | (Err e, w2) => (Err e, w2)
        end
    | (Err e, w1) => (Err e, w1)
    end = (r, w')).
  { rewrite <- Hrun. unfold reset_output, bind.
    destruct (os_path_exists E (config_file_path_of cfg) w) as [[found|e] w0]; [| done].
    destruct ((if found then os_remove (config_file_path_of cfg) else ret tt) w0)
      as [[[]|e] w1]; done. }
  clear Hrun.
  destruct (reset_output E (config_file_path_of cfg) w) as [[[]|e] w1] eqn:Hreset;
    [| injection Hrun' as <- <-; by eapply parse_reset_failed].
  rewrite get_arc_machines_run in Hrun'.
  destruct (as_strs (list_command (resource_group_of cfg) (subscription_id_of cfg)))
    as [cmd|] eqn:Hcmd;
    [| injection Hrun' as <- <-; by eapply parse_list_refused].
  destruct (spawn E (trace w1) cmd (fs w1)) as [o fs2] eqn:Hspawn.
  destruct (failure E "Failed to retrieve Azure Arc machines: " cmd o) as [e|] eqn:Hfail;
    [injection Hrun' as <- <-; by eapply parse_list_failed |].
  destruct (failure_none E _ _ _ Hfail) as [stdout ->].
  destruct (listed E stdout) as [names|e] eqn:Hlisted;
    [| injection Hrun' as <- <-; by eapply parse_list_unusable].
  apply for_each_loop_run in Hrun'. by eapply parse_listed.
Qed.

End Parse.

(** ** Resetting the output file *)

Section Reset.

Variable E : env.

(** Either a file was at the path and is removed, or nothing changes: no
    path is configured as a string, or the path holds a directory (an
    error), or it holds nothing. *)
Lemma reset_output_run (cfp : pyval) (w : world) (r1 : result unit) (w1 : world) :
  reset_output E cfp w = (r1, w1) →
  (∃ p c, cfp = PyStr p ∧ fs w !! p = Some (File c) ∧ r1 = Ok tt ∧ w1 = removed p w)
  ∨ (w1 = w ∧
     ∀ p, cfp = PyStr p →
          (fs w !! p = Some Dir ∧ ∃ e, r1 = Err e) ∨ (fs w !! p = None ∧ r1 = Ok tt)).
Proof.
  unfold reset_output, bind, os_path_exists.
  destruct cfp as [| b | n | p | l | d]; try (intros [= <- <-]; by right).
  - destruct (fd_open E (if b then 1 else 0)%Z); intros [= <- <-]; by right.
  - destruct (fd_open E n); intros [= <- <-]; by right.
  - unfold os_remove, ret.
    destruct (fs w !! p) as [[c|]|] eqn:Hp; cbn [bool_decide decide_rel];
      intros Hrun.
    + rewrite bool_decide_eq_true_2 in Hrun by eauto. rewrite Hp in Hrun.
      injection Hrun as <- <-. left. by exists p, c.
    + rewrite bool_decide_eq_true_2 in Hrun by eauto. rewrite Hp in Hrun.
      injection Hrun as <- <-. right. split; [done |].
      intros p' [= <-]. left. eauto.
    + rewrite bool_decide_eq_false_2 in Hrun by (intros [? ?]; done).
      injection Hrun as <- <-. right. split; [done |].
      intros p' [= <-]. by right.
Qed.

Lemma reset_output_inv (cfp : pyval) (w : world) (r1 : result unit) (w1 : world) :
  reset_output E cfp w = (r1, w1) → inv w1 = inv w.
Proof.
  intros Hrun. apply reset_output_run in Hrun as [(p & c & _ & _ & _ & ->) | [-> _]]; done.
Qed.

(** Resetting the output file runs no command. *)
Lemma reset_output_trace (cfp : pyval) (fs0 : filesystem) (inv0 : inventory)
    (r1 : result unit) (w1 : world) :
  reset_output E cfp (start fs0 inv0) = (r1, w1) →
  Forall (λ ev, ¬ is_spawn ev) (trace w1).
Proof.
  intros Hrun. apply reset_output_run in Hrun as [(p & c & _ & _ & _ & ->) | [-> _]];
    cbn [removed start trace app]; repeat constructor; auto.
Qed.

End Reset.

(** ** Configuration errors *)

(** C4: when the configuration document lacks [resource_group] or lacks
    [username], [parse] raises [ValueError] and leaves the world as it was:
    no command was run and no host was registered. *)
Theorem parse_missing_required (E : env) (path : string) (cache : bool) (w : world)
    (cfg : gmap string pyval) :
  _read_config_data E path = Ok cfg →
  cfg !! "resource_group" = None ∨ cfg !! "username" = None →
  ∃ msg, parse E path cache w = (Err (ValueError msg), w).
Proof.
  intros Hcfg Hmissing. unfold parse, bind, lift. rewrite Hcfg.
  destruct (truthy (dict_get cfg "resource_group" PyNone)) eqn:Hrg; cbn [negb];
    [| by eexists].
  destruct (truthy (dict_get cfg "username" PyNone)) eqn:Huser; cbn [negb];
    [| by eexists].
  exfalso. unfold dict_get in Hrg, Huser.
  destruct Hmissing as [Hnone | Hnone]; rewrite Hnone in *; done.
Qed.

(** C10: the validation goes by truth value: a [resource_group] or a
    [username] that is present with a false value (an empty string, [None],
    0, ...) gives the very run that its absence gives, a [ValueError] that
    leaves the world as it was. *)
Theorem parse_falsy_required (E : env) (path : string) (cache : bool) (w : world)
    (cfg : gmap string pyval) (key : string) (v : pyval) :
  _read_config_data E path = Ok cfg →
  key = "resource_group" ∨ key = "username" →
  cfg !! key = Some v →
  truthy v = false →
  parse E path cache w = parse (with_config E (delete key cfg)) path cache w
  ∧ ∃ msg, parse E path cache w = (Err (ValueError msg), w).
Proof.
  intros Hcfg Hkey Hv Hfalsy. unfold parse, bind, lift. rewrite Hcfg.
  cbn [with_config _read_config_data]. unfold dict_get.
  destruct Hkey as [-> | ->].
  - rewrite Hv, lookup_delete_eq, Hfalsy. cbn [negb truthy]. split; [done | by eexists].
  - rewrite Hv, lookup_delete_eq, Hfalsy. rewrite lookup_delete_ne by done.
    destruct (truthy (default PyNone (cfg !! "resource_group"))) eqn:Hrg.
    + assert (Hrg' : truthy match cfg !! "resource_group" with
                            | Some v0 => v0 | None => PyNone end = true)
        by (by destruct (cfg !! "resource_group")).
      rewrite Hrg'. cbn [negb truthy]. split; [done | by eexists].
    + assert (Hrg' : truthy match cfg !! "resource_group" with
                            | Some v0 => v0 | None => PyNone end = false)
        by (by destruct (cfg !! "resource_group")).
      rewrite Hrg'. cbn [negb]. split; [done | by eexists].
Qed.

(** ** The cache flag *)

(** C8: the [cache] argument is not used: two runs that differ in it only
    give the same result and the same world, that is the same commands, the
    same hosts and variables and the same file system. *)
Theorem parse_cache_unused (E : env) (path : string) (w : world) (cache1 cache2 : bool) :
  parse E path cache1 w = parse E path cache2 w.
Proof. reflexivity. Qed.

(** ** The side effects of a run, in order *)

Section Traces.

Variable E : env.

Lemma generated_events (done : list string) (evs : list event) (ev : event) :
  Forall2 generated done evs → ev ∈ evs →
  ∃ n cmd out, n ∈ done ∧ ev = EvSpawn cmd (Exited 0 out) ∧ is_ssh_config_command n cmd.
Proof.
  induction 1 as [| n ev' done evs (cmd & out & -> & Hn) _ IH]; intros Hin.
  - by apply elem_of_nil in Hin.
  - apply elem_of_cons in Hin as [-> | Hin].
    + exists n, cmd, out. split; [left | done].
    + destruct (IH Hin) as (m & cmd' & out' & Hm & -> & Hcmd).
      exists m, cmd', out'. split; [by right | done].
Qed.

(** The loop only runs generation commands, one after the other, each in
    the world the one before left. *)
Lemma loop_run_trace (rg user key cfp sub : pyval) (vs : list pyval)
    (w : world) (r : result unit) (w' : world) :
  loop_run E rg user key cfp sub vs w r w' →
  ∃ evs, trace w' = trace w ++ evs
         ∧ Forall (λ ev, ∃ n cmd o, ev = EvSpawn cmd o ∧ is_ssh_config_command n cmd) evs.
Proof.
  intros Hrun.
  destruct (loop_run_outcome E _ _ _ _ _ _ _ _ _ Hrun)
    as (done & rest & evs & tail & _ & _ & _ & Htrace & Hevs & Hr).
  exists (evs ++ tail). split; [done |].
  apply Forall_app. split.
  - apply Forall_forall. intros ev Hev.
    destruct (generated_events _ _ _ Hevs Hev) as (n & cmd & out & _ & -> & Hcmd).
    by exists n, cmd, (Exited 0 out).
  - destruct r as [[] | e].
    + destruct Hr as [_ ->]. constructor.
    + destruct Hr as (v & rest' & _ &
        [-> | (n & cmd & o & g & u & p & _ & Hcmd & _ & _ & _ & -> & _)]).
      * constructor.
      * repeat constructor. by exists n, cmd, o.
Qed.

(** A run in which the listing command is seen to exit with another code
    than 0 stopped there. *)
Lemma parse_run_listing_failed (path : string) (fs0 : filesystem) (inv0 : inventory)
    (r : result unit) (w' : world) (cmd : list string) (rc : Z) (out : string) :
  parse_run E path (start fs0 inv0) r w' →
  EvSpawn cmd (Exited rc out) ∈ trace w' →
  is_list_command cmd →
  rc ≠ 0%Z →
  ∃ cfg w1 fs2,
    _read_config_data E path = Ok cfg ∧ valid_config cfg
    ∧ reset_output E (config_file_path_of cfg) (start fs0 inv0) = (Ok tt, w1)
    ∧ spawn E (trace w1) cmd (fs w1) = (Exited rc out, fs2)
    ∧ r = Err (Exception ("Failed to retrieve Azure Arc machines: " +:+ cpe_str E cmd rc))
    ∧ w' = spawned w1 cmd (Exited rc out) fs2.
Proof.
  intros Hrun Hev Hlist Hrc.
  assert (Hquiet : ∀ cfp r1 w1,
    reset_output E cfp (start fs0 inv0) = (r1, w1) →
    EvSpawn cmd (Exited rc out) ∉ trace w1).
  { intros cfp r1 w1 Hreset Hin. apply reset_output_trace in Hreset.
    rewrite Forall_forall in Hreset. by apply (Hreset _ Hin). }
  inversion Hrun as
    [ w e Hcfg | w cfg Hcfg Hrg | w cfg Hcfg Hrg Huser
    | w cfg e w1 Hcfg Hvalid Hreset
    | w cfg w1 Hcfg Hvalid Hreset Hcmd
    | w cfg w1 lcmd o fs2 e Hcfg Hvalid Hreset Hcmd Hspawn Hfail
    | w cfg w1 lcmd stdout fs2 e Hcfg Hvalid Hreset Hcmd Hspawn Hlisted
    | w cfg w1 lcmd stdout fs2 names r0 w0 Hcfg Hvalid Hreset Hcmd Hspawn Hlisted Hloop ];
    subst.
  - by apply elem_of_nil in Hev.
  - by apply elem_of_nil in Hev.
  - by apply elem_of_nil in Hev.
  - by apply Hquiet in Hreset.
  - by apply Hquiet in Hreset.
  - cbn [spawned trace] in Hev. apply elem_of_app in Hev as [Hev | Hev];
      [by apply Hquiet in Hreset |].
    apply list_elem_of_singleton in Hev as [= <- <-].
    exists cfg, w1, fs2. split_and!; try done.
    cbn [failure] in Hfail. apply Z.eqb_neq in Hrc. rewrite Hrc in Hfail.
    by injection Hfail as <-.
  - cbn [spawned trace] in Hev. apply elem_of_app in Hev as [Hev | Hev];
      [by apply Hquiet in Hreset |].
    by apply list_elem_of_singleton in Hev as [= _ -> _].
  - destruct (loop_run_trace _ _ _ _ _ _ _ _ _ Hloop) as (evs & Htrace & Hevs).
    rewrite Htrace in Hev. cbn [spawned trace] in Hev.
    apply elem_of_app in Hev as [Hev | Hev];
      [apply elem_of_app in Hev as [Hev | Hev] |].
    + by apply Hquiet in Hreset.
    + by apply list_elem_of_singleton in Hev as [= _ -> _].
    + rewrite Forall_forall in Hevs.
      destruct (Hevs _ Hev) as (n & cmd' & o & [= <- <-] & Hcmd').
      by apply ssh_config_not_list in Hcmd'.
Qed.

End Traces.

(** ** A listing command that fails *)

(** C5: a run in which the machine listing command exits with another code
    than 0 ends in an exception whose message is ["Failed to retrieve Azure
    Arc machines: "] followed by the text of the failure, and the inventory
    is as it was: no host was registered. *)
Theorem parse_listing_failed (E : env) (path : string) (cache : bool)
    (fs0 : filesystem) (inv0 : inventory) (r : result unit) (w' : world)
    (cmd : list string) (rc : Z) (out : string) :
  parse E path cache (start fs0 inv0) = (r, w') →
  EvSpawn cmd (Exited rc out) ∈ trace w' →
  is_list_command cmd →
  rc ≠ 0%Z →
  r = Err (Exception ("Failed to retrieve Azure Arc machines: " +:+ cpe_str E cmd rc))
  ∧ inv w' = inv0.
Proof.
  intros Hrun Hev Hlist Hrc. apply parse_parse_run in Hrun.
  destruct (parse_run_listing_failed E _ _ _ _ _ _ _ _ Hrun Hev Hlist Hrc)
    as (cfg & w1 & fs2 & _ & _ & Hreset & _ & -> & ->).
  split; [done |]. cbn [spawned inv]. by apply reset_output_inv in Hreset.
Qed.

(** C9: a failed run is not atomic for the output file: when a file was at
    the configured path and the run stops on a listing command that exits
    with another code than 0, the file was removed first, the listing command
    ran in the file system without it, and nothing brings it back. *)
Theorem parse_failure_keeps_removal (E : env) (path : string) (cache : bool)
    (fs0 : filesystem) (inv0 : inventory) (r : result unit) (w' : world)
    (cfg : gmap string pyval) (p content : string)
    (cmd : list string) (rc : Z) (out : string) :
  _read_config_data E path = Ok cfg →
  config_file_path_of cfg = PyStr p →
  fs0 !! p = Some (File content) →
  parse E path cache (start fs0 inv0) = (r, w') →
  EvSpawn cmd (Exited rc out) ∈ trace w' →
  is_list_command cmd →
  rc ≠ 0%Z →
  valid_config cfg
  ∧ (∃ e, r = Err e)
  ∧ trace w' = [EvRemove p; EvSpawn cmd (Exited rc out)]
  ∧ spawn E [EvRemove p] cmd (delete p fs0) = (Exited rc out, fs w').
Proof.
  intros Hcfg Hpath Hfile Hrun Hev Hlist Hrc. apply parse_parse_run in Hrun.
  destruct (parse_run_listing_failed E _ _ _ _ _ _ _ _ Hrun Hev Hlist Hrc)
    as (cfg' & w1 & fs2 & Hcfg' & Hvalid & Hreset & Hspawn & -> & ->).
  rewrite Hcfg in Hcfg'. injection Hcfg' as <-. rewrite Hpath in Hreset.
  apply reset_output_run in Hreset as [(p' & c & [= <-] & _ & _ & ->) | [_ Hno]].
  - cbn [removed start spawned trace fs app] in *. split_and!; eauto.
  - destruct (Hno p eq_refl) as [[Hdir _] | [Hnone _]];
      cbn [start fs] in *; congruence.
Qed.

(** ** The output file is reset first *)

Section AfterReset.

Variable E : env.

(** Once the configuration is valid, a run is the reset of the output
    file followed by commands only; the first of them runs in the world the
    reset left. *)
Lemma parse_run_after_reset (path : string) (w : world) (r : result unit) (w' : world)
    (cfg : gmap string pyval) :
  parse_run E path w r w' →
  _read_config_data E path = Ok cfg →
  valid_config cfg →
  ∃ r1 w1 tr,
    reset_output E (config_file_path_of cfg) w = (r1, w1)
    ∧ trace w' = trace w1 ++ tr
    ∧ Forall is_spawn tr
    ∧ match tr with
      | [] => fs w' = fs w1
      | ev :: _ => ∃ cmd, ev = EvSpawn cmd (spawn E (trace w1) cmd (fs w1)).1
      end.
Proof.
  intros Hrun Hcfg [Hrg Huser].
  inversion Hrun as
    [ w0 e Hcfg' | w0 cfg' Hcfg' Hrg' | w0 cfg' Hcfg' Hrg' Huser'
    | w0 cfg' e w1 Hcfg' Hvalid Hreset
    | w0 cfg' w1 Hcfg' Hvalid Hreset Hcmd
    | w0 cfg' w1 lcmd o fs2 e Hcfg' Hvalid Hreset Hcmd Hspawn Hfail
    | w0 cfg' w1 lcmd stdout fs2 e Hcfg' Hvalid Hreset Hcmd Hspawn Hlisted
    | w0 cfg' w1 lcmd stdout fs2 names r0 w2 Hcfg' Hvalid Hreset Hcmd Hspawn Hlisted Hloop ];
    subst; rewrite Hcfg in Hcfg'; try done; injection Hcfg' as <-; try congruence.
  - exists (Err e), w', []. rewrite app_nil_r. split_and!; done.
  - exists (Ok tt), w', []. rewrite app_nil_r. split_and!; done.
  - exists (Ok tt), w1, [EvSpawn lcmd o]. split_and!; try done.
    + by repeat constructor.
    + exists lcmd. by rewrite Hspawn.
  - exists (Ok tt), w1, [EvSpawn lcmd (Exited 0 stdout)]. split_and!; try done.
    + by repeat constructor.
    + exists lcmd. by rewrite Hspawn.
  - destruct (loop_run_trace E _ _ _ _ _ _ _ _ _ Hloop) as (evs & Htrace & Hevs).
    exists (Ok tt), w1, (EvSpawn lcmd (Exited 0 stdout) :: evs). split_and!; try done.
    + rewrite Htrace. cbn [spawned trace]. by rewrite <- app_assoc.
    + constructor; [done |]. eapply Forall_impl; [exact Hevs |].
      by intros ev (n & cmd & o & -> & _).
    + exists lcmd. by rewrite Hspawn.
Qed.

End AfterReset.

(** C6: with a valid configuration, a file at the configured path is removed
    before anything else happens: the removal is the first side effect, only
    commands follow it, and the first of them runs in a file system without
    the file.  When nothing is at the path, nothing is removed. *)
Theorem parse_resets_output (E : env) (path : string) (cache : bool)
    (fs0 : filesystem) (inv0 : inventory) (r : result unit) (w' : world)
    (cfg : gmap string pyval) (p : string) :
  _read_config_data E path = Ok cfg →
  valid_config cfg →
  config_file_path_of cfg = PyStr p →
  parse E path cache (start fs0 inv0) = (r, w') →
  (∀ content, fs0 !! p = Some (File content) →
     ∃ tr, trace w' = EvRemove p :: tr
           ∧ Forall is_spawn tr
           ∧ match tr with
             | [] => fs w' = delete p fs0
             | ev :: _ =>
                 ∃ cmd, ev = EvSpawn cmd (spawn E [EvRemove p] cmd (delete p fs0)).1
             end)
  ∧ (fs0 !! p = None → Forall is_spawn (trace w') ∧ ∀ q, EvRemove q ∉ trace w').
Proof.
  intros Hcfg Hvalid Hpath Hrun. apply parse_parse_run in Hrun.
  destruct (parse_run_after_reset E _ _ _ _ _ Hrun Hcfg Hvalid)
    as (r1 & w1 & tr & Hreset & Htrace & Htr & Hfirst).
  rewrite Hpath in Hreset.
  apply reset_output_run in Hreset as [(p' & c & [= <-] & Hfile & _ & ->) | [-> Hno]];
    cbn [removed start trace fs app] in *.
  - split.
    + intros _ _. by exists tr.
    + intros Hnone. congruence.
  - rewrite Htrace. split.
    + intros content Hfile.
      destruct (Hno p eq_refl) as [[Hdir _] | [Hnone _]]; congruence.
    + intros _. split; [done |]. intros q Hq.
      rewrite Forall_forall in Htr. by apply (Htr _ Hq).
Qed.

(** ** A run that completes *)

Section Completed.

Variable E : env.

Lemma host_vars_fresh (g n u p : string) :
  host_vars (g +:+ "-" +:+ n +:+ "-" +:+ u) p ∅ = parse_vars g n u p.
Proof.
  unfold host_vars, parse_vars. apply map_eq. intros i.
  rewrite <- !insert_empty, !lookup_insert. repeat case_decide; congruence.
Qed.

Lemma names_of_records (recs : list pyval) (names : list string) :
  Forall2 machine_record recs names → names_of recs = Ok (PyStr <$> names).
Proof.
  induction 1 as [| rec n recs names (d & -> & Hd) _ IH]; [done |].
  cbn [names_of py_getitem]. by rewrite Hd, IH.
Qed.

Lemma PyStr_fmap_inj (l1 l2 : list string) : PyStr <$> l1 = PyStr <$> l2 → l1 = l2.
Proof.
  revert l2. induction l1 as [|x l1 IH]; intros [|y l2]; try done.
  intros [= -> Hl]. f_equal. by apply IH.
Qed.

(** A run that returns listed machines with string names, ran the generation
    command of each with exit code 0, and registered each with its
    variables; the other hosts of the inventory are as they were. *)
Lemma parse_run_completed (path : string) (fs0 : filesystem) (inv0 : inventory)
    (w' : world) :
  parse_run E path (start fs0 inv0) (Ok tt) w' →
  ∃ cfg w1 cmd stdout names evs,
    _read_config_data E path = Ok cfg
    ∧ Forall (λ ev, ¬ is_spawn ev) (trace w1)
    ∧ is_list_command cmd
    ∧ listed E stdout = Ok (PyStr <$> names)
    ∧ trace w' = trace w1 ++ EvSpawn cmd (Exited 0 stdout) :: evs
    ∧ Forall2 generated names evs
    ∧ (∀ h, h ∉ names → inv w' !! h = inv0 !! h)
    ∧ (∀ h, h ∈ names → ∃ g u p,
          resource_group_of cfg = PyStr g ∧ username_of cfg = PyStr u
          ∧ config_file_path_of cfg = PyStr p
          ∧ inv w' !! h =
              Some (host_vars (g +:+ "-" +:+ h +:+ "-" +:+ u) p (default ∅ (inv0 !! h)))).
Proof.
  intros Hrun.
  inversion Hrun as
    [ | | | | | |
    | w0 cfg w1 lcmd stdout fs2 names r0 w2 Hcfg Hvalid Hreset Hcmd Hspawn Hlisted Hloop ];
    subst.
  destruct (loop_run_outcome E _ _ _ _ _ _ _ _ _ Hloop)
    as (done & rest & evs & tail & -> & Hout & Hin & Htrace & Hevs & -> & ->).
  rewrite !app_nil_r in *. cbn [spawned inv trace] in *.
  rewrite (reset_output_inv E _ _ _ _ Hreset) in Hout, Hin. cbn [start inv] in *.
  exists cfg, w1, lcmd, stdout, done, evs. split_and!; try done.
  - by eapply reset_output_trace.
  - by apply as_strs_list_command in Hcmd as [_ ?].
  - rewrite Htrace. by rewrite <- app_assoc.
Qed.

End Completed.

(** C1, as amended: in a run of [parse] that completes, when the listing
    command returned N machine records whose names are distinct and not yet
    in the inventory, the hosts of the inventory are those it had and the N
    names of the records. *)
Theorem parse_registers_listed (E : env) (path : string) (cache : bool)
    (fs0 : filesystem) (inv0 : inventory) (w' : world)
    (cmd : list string) (out : string) (recs : list pyval) (names : list string) :
  parse E path cache (start fs0 inv0) = (Ok tt, w') →
  EvSpawn cmd (Exited 0 out) ∈ trace w' →
  is_list_command cmd →
  json_loads E out = Some (PyList recs) →
  Forall2 machine_record recs names →
  NoDup names →
  (∀ n, n ∈ names → inv0 !! n = None) →
  dom (inv w') = dom inv0 ∪ list_to_set names
  ∧ size (dom (inv w')) = size (dom inv0) + length recs.
Proof.
  intros Hrun Hev Hlist Hjson Hrecs Hnodup Hfresh. apply parse_parse_run in Hrun.
  destruct (parse_run_completed E _ _ _ _ Hrun)
    as (cfg & w1 & cmd' & stdout & names' & evs
        & _ & Hquiet & _ & Hlisted & Htrace & Hevs & Hout & Hin).
  assert (stdout = out) as ->.
  { rewrite Htrace in Hev. apply elem_of_app in Hev as [Hev | Hev].
    - rewrite Forall_forall in Hquiet. by destruct (Hquiet _ Hev).
    - apply elem_of_cons in Hev as [[= _ <-] | Hev]; [done |].
      destruct (generated_events _ _ _ Hevs Hev) as (n & c & o & _ & [= <- _] & Hc).
      by apply ssh_config_not_list in Hc. }
  assert (names' = names) as ->.
  { apply PyStr_fmap_inj. unfold listed in Hlisted. rewrite Hjson in Hlisted.
    cbn [py_iter] in Hlisted. rewrite (names_of_records _ _ Hrecs) in Hlisted.
    by injection Hlisted. }
  assert (Hdom : dom (inv w') = dom inv0 ∪ list_to_set names).
  { apply set_eq. intros h.
    rewrite elem_of_union, !elem_of_dom, elem_of_list_to_set.
    destruct (decide (h ∈ names)) as [Hh | Hh].
    - destruct (Hin h Hh) as (g & u & p & _ & _ & _ & ->). split; eauto.
    - rewrite (Hout h Hh). split; [by left | by intros [? | ?]]. }
  split; [done |].
  rewrite Hdom, size_union.
  - rewrite size_list_to_set by done. by rewrite (Forall2_length _ _ _ Hrecs).
  - intros h Hh1 Hh2. apply elem_of_list_to_set in Hh2.
    apply elem_of_dom in Hh1 as [x Hx]. by rewrite (Hfresh h Hh2) in Hx.
Qed.

(** ** A generation command that fails *)

(** C3: a run in which the generation command of a machine [n] is seen to
    exit with another code than 0 stops there with an exception whose message
    is ["Failed to generate SSH config: "] followed by the text of the failure.
    The machines listed before [n] had their commands exit with 0 and are
    registered with their variables; the failing command is the last side
    effect, so no command was run for a later machine; and a host that is not
    among the earlier machines is in the inventory only if it was there
    before the run: with names that are unique as host keys, neither [n] nor
    a later machine is registered. *)
Theorem parse_generation_failed (E : env) (path : string) (cache : bool)
    (fs0 : filesystem) (inv0 : inventory) (r : result unit) (w' : world)
    (cfg : gmap string pyval) (cmd : list string) (rc : Z) (out : string) (n : string) :
  _read_config_data E path = Ok cfg →
  parse E path cache (start fs0 inv0) = (r, w') →
  EvSpawn cmd (Exited rc out) ∈ trace w' →
  is_ssh_config_command n cmd →
  rc ≠ 0%Z →
  ∃ lcmd lout earlier later tr0 evs g u p,
    is_list_command lcmd
    ∧ listed E lout = Ok ((PyStr <$> earlier) ++ PyStr n :: later)
    ∧ r = Err (Exception ("Failed to generate SSH config: " +:+ cpe_str E cmd rc))
    ∧ trace w' = tr0 ++ EvSpawn lcmd (Exited 0 lout) :: evs ++ [EvSpawn cmd (Exited rc out)]
    ∧ Forall (λ ev, ¬ is_spawn ev) tr0
    ∧ Forall2 generated earlier evs
    ∧ resource_group_of cfg = PyStr g ∧ username_of cfg = PyStr u
    ∧ config_file_path_of cfg = PyStr p
    ∧ (∀ h, h ∈ earlier →
         inv w' !! h =
           Some (host_vars (g +:+ "-" +:+ h +:+ "-" +:+ u) p (default ∅ (inv0 !! h))))
    ∧ (∀ h, h ∉ earlier → inv w' !! h = inv0 !! h)
    ∧ (∀ h, PyStr h ∈ PyStr n :: later → h ∉ earlier → inv0 !! h = None →
         inv w' !! h = None).
Proof.
  intros Hcfg Hrun Hev Hssh Hrc. apply parse_parse_run in Hrun.
  assert (Hquiet : ∀ cfp r1 w1,
    reset_output E cfp (start fs0 inv0) = (r1, w1) →
    EvSpawn cmd (Exited rc out) ∉ trace w1).
  { intros cfp r1 w1 Hreset Hin. apply reset_output_trace in Hreset.
    rewrite Forall_forall in Hreset. by apply (Hreset _ Hin). }
  assert (Hnolist : ∀ lcmd o cfg',
    as_strs (list_command (resource_group_of cfg') (subscription_id_of cfg')) = Some lcmd →
    EvSpawn cmd (Exited rc out) ≠ EvSpawn lcmd o).
  { intros lcmd o cfg' Hcmd [= <- _]. apply as_strs_list_command in Hcmd as [_ Hl].
    by apply ssh_config_not_list in Hssh. }
  inversion Hrun as
    [ w e Hcfg' | w cfg' Hcfg' Hrg | w cfg' Hcfg' Hrg Huser
    | w cfg' e w1 Hcfg' Hvalid Hreset
    | w cfg' w1 Hcfg' Hvalid Hreset Hcmd
    | w cfg' w1 lcmd o fs2 e Hcfg' Hvalid Hreset Hcmd Hspawn Hfail
    | w cfg' w1 lcmd stdout fs2 e Hcfg' Hvalid Hreset Hcmd Hspawn Hlisted
    | w cfg' w1 lcmd stdout fs2 names r0 w0 Hcfg' Hvalid Hreset Hcmd Hspawn Hlisted Hloop ];
    subst.
  - by apply elem_of_nil in Hev.
  - by apply elem_of_nil in Hev.
  - by apply elem_of_nil in Hev.
  - by apply Hquiet in Hreset.
  - by apply Hquiet in Hreset.
  - cbn [spawned trace] in Hev. apply elem_of_app in Hev as [Hev | Hev];
      [by apply Hquiet in Hreset |].
    apply list_elem_of_singleton in Hev. destruct (Hnolist _ _ _ Hcmd Hev).
  - cbn [spawned trace] in Hev. apply elem_of_app in Hev as [Hev | Hev];
      [by apply Hquiet in Hreset |].
    apply list_elem_of_singleton in Hev. destruct (Hnolist _ _ _ Hcmd Hev).
  - rewrite Hcfg in Hcfg'. injection Hcfg' as <-.
    destruct (loop_run_outcome E _ _ _ _ _ _ _ _ _ Hloop)
      as (done & rest & evs & tail & -> & Hout & Hin & Htrace & Hevs & Hr).
    cbn [spawned inv trace] in *.
    rewrite (reset_output_inv E _ _ _ _ Hreset) in Hout, Hin. cbn [start inv] in *.
    assert (Htail : EvSpawn cmd (Exited rc out) ∈ tail).
    { rewrite Htrace in Hev.
      apply elem_of_app in Hev as [Hev | Hev];
        [apply elem_of_app in Hev as [Hev | Hev] |].
      - by apply Hquiet in Hreset.
      - apply list_elem_of_singleton in Hev. destruct (Hnolist _ _ _ Hcmd Hev).
      - apply elem_of_app in Hev as [Hev | Hev]; [| done].
        destruct (generated_events _ _ _ Hevs Hev) as (m & c & o & _ & [= _ -> _] & _).
        done. }
    destruct r as [[] | e].
    { destruct Hr as [_ ->]. by apply elem_of_nil in Htail. }
    destruct Hr as (v & rest' & -> &
      [-> | (m & c & o & g & u & p & -> & Hc & Hg & Hu & Hp & -> & Hfail)]);
      [by apply elem_of_nil in Htail |].
    apply list_elem_of_singleton in Htail as [= <- <-].
    assert (m = n) as -> by (by eapply ssh_config_command_vm).
    cbn [failure] in Hfail. apply Z.eqb_neq in Hrc. rewrite Hrc in Hfail.
    injection Hfail as <-.
    exists lcmd, stdout, done, rest', (trace w1), evs, g, u, p. split_and!; try done.
    + by apply as_strs_list_command in Hcmd as [_ ?].
    + rewrite Htrace. by rewrite <- !app_assoc.
    + by eapply reset_output_trace.
    + intros h Hh. destruct (Hin h Hh) as (g' & u' & p' & Hg' & Hu' & Hp' & ->).
      rewrite Hg in Hg'. rewrite Hu in Hu'. rewrite Hp in Hp'.
      by injection Hg' as <-; injection Hu' as <-; injection Hp' as <-.
    + intros h _ Hh Hfresh. by rewrite (Hout h Hh).
Qed.

(** ** The properties on a resource group with two machines *)

(** Both machines of the demonstration are registered when every command succeeds. *)
Lemma parse_registers_listed_witness :
  dom (inv (demo_end demo_config 0 "")) = dom (∅ : inventory) ∪ list_to_set ["web1"; "db1"]
  ∧ size (dom (inv (demo_end demo_config 0 ""))) = size (dom (∅ : inventory)) + 2.
Proof.
  apply (parse_registers_listed (demo_env demo_config 0 "") "hosts.azure_arc.yml" true
           demo_fs ∅ (demo_end demo_config 0 "") demo_list_command "machines"
           demo_records ["web1"; "db1"]).
  - vm_compute. reflexivity.
  - apply list_elem_of_lookup_2 with (i := 1). vm_compute. reflexivity.
  - by eexists.
  - reflexivity.
  - repeat constructor; eexists; (split; [reflexivity | vm_compute; reflexivity]).
  - apply (bool_decide_unpack _). vm_compute. exact I.
  - intros n _. apply lookup_empty.
Defined.

(** The run in which the generation command of [db1] exits with 1. *)
Lemma parse_generation_failed_witness :
  ∃ lcmd lout earlier later tr0 evs g u p,
    is_list_command lcmd
    ∧ listed (demo_env demo_config 0 "db1") lout = Ok ((PyStr <$> earlier) ++ PyStr "db1" :: later)
    ∧ (parse (demo_env demo_config 0 "db1") "hosts.azure_arc.yml" true (start demo_fs ∅)).1
      = Err (Exception ("Failed to generate SSH config: "
                        +:+ cpe_str (demo_env demo_config 0 "db1")
                              (demo_ssh_config_command "db1") 1))
    ∧ trace (demo_end demo_config 0 "db1")
      = tr0 ++ EvSpawn lcmd (Exited 0 lout) :: evs
            ++ [EvSpawn (demo_ssh_config_command "db1") (Exited 1 "")]
    ∧ Forall (λ ev, ¬ is_spawn ev) tr0
    ∧ Forall2 generated earlier evs
    ∧ resource_group_of demo_config = PyStr g ∧ username_of demo_config = PyStr u
    ∧ config_file_path_of demo_config = PyStr p
    ∧ (∀ h, h ∈ earlier →
         inv (demo_end demo_config 0 "db1") !! h =
           Some (host_vars (g +:+ "-" +:+ h +:+ "-" +:+ u) p
                   (default ∅ ((∅ : inventory) !! h))))
    ∧ (∀ h, h ∉ earlier → inv (demo_end demo_config 0 "db1") !! h = (∅ : inventory) !! h)
    ∧ (∀ h, PyStr h ∈ PyStr "db1" :: later → h ∉ earlier → (∅ : inventory) !! h = None →
         inv (demo_end demo_config 0 "db1") !! h = None).
Proof.
  apply (parse_generation_failed (demo_env demo_config 0 "db1") "hosts.azure_arc.yml" true
           demo_fs ∅ _ (demo_end demo_config 0 "db1") demo_config
           (demo_ssh_config_command "db1") 1 "" "db1").
  - reflexivity.
  - vm_compute. reflexivity.
  - apply list_elem_of_lookup_2 with (i := 3). vm_compute. reflexivity.
  - by eexists.
  - done.
Defined.

(** A configuration without [username]. *)
Lemma parse_missing_required_witness :
  ∃ msg,
    parse (demo_env {[ "resource_group" := PyStr "rg" ]} 0 "") "hosts.azure_arc.yml" true
      (start demo_fs ∅)
    = (Err (ValueError msg), start demo_fs ∅).
Proof.
  apply (parse_missing_required
           (demo_env {[ "resource_group" := PyStr "rg" ]} 0 "") "hosts.azure_arc.yml" true
           (start demo_fs ∅) {[ "resource_group" := PyStr "rg" ]}).
  - reflexivity.
  - right. vm_compute. reflexivity.
Defined.

(** A configuration whose [username] is the empty string. *)
Lemma parse_falsy_required_witness :
  parse (demo_env (<["username" := PyStr ""]> demo_config) 0 "") "hosts.azure_arc.yml" true
    (start demo_fs ∅)
  = parse (with_config (demo_env (<["username" := PyStr ""]> demo_config) 0 "")
             (delete "username" (<["username" := PyStr ""]> demo_config)))
      "hosts.azure_arc.yml" true (start demo_fs ∅)
  ∧ ∃ msg,
      parse (demo_env (<["username" := PyStr ""]> demo_config) 0 "") "hosts.azure_arc.yml"
        true (start demo_fs ∅)
      = (Err (ValueError msg), start demo_fs ∅).
Proof.
  apply (parse_falsy_required
           (demo_env (<["username" := PyStr ""]> demo_config) 0 "") "hosts.azure_arc.yml"
           true (start demo_fs ∅) (<["username" := PyStr ""]> demo_config)
           "username" (PyStr "")).
  - reflexivity.
  - by right.
  - vm_compute. reflexivity.
  - reflexivity.
Defined.

(** The run in which the listing command exits with 2. *)
Lemma parse_listing_failed_witness :
  (parse (demo_env demo_config 2 "") "hosts.azure_arc.yml" true (start demo_fs ∅)).1
  = Err (Exception ("Failed to retrieve Azure Arc machines: "
                    +:+ cpe_str (demo_env demo_config 2 "") demo_list_command 2))
  ∧ inv (demo_end demo_config 2 "") = ∅.
Proof.
  apply (parse_listing_failed (demo_env demo_config 2 "") "hosts.azure_arc.yml" true
           demo_fs ∅ _ (demo_end demo_config 2 "") demo_list_command 2 "machines").
  - vm_compute. reflexivity.
  - apply list_elem_of_lookup_2 with (i := 1). vm_compute. reflexivity.
  - by eexists.
  - done.
Defined.

(** The stale output file is gone after the run in which the listing command exits with 2. *)
Lemma parse_failure_keeps_removal_witness :
  valid_config demo_config
  ∧ (∃ e, (parse (demo_env demo_config 2 "") "hosts.azure_arc.yml" true
             (start demo_fs ∅)).1 = Err e)
  ∧ trace (demo_end demo_config 2 "")
    = [EvRemove "/tmp/azure_arc_ssh_config"; EvSpawn demo_list_command (Exited 2 "machines")]
  ∧ spawn (demo_env demo_config 2 "") [EvRemove "/tmp/azure_arc_ssh_config"]
      demo_list_command (delete "/tmp/azure_arc_ssh_config" demo_fs)
    = (Exited 2 "machines", fs (demo_end demo_config 2 "")).
Proof.
  apply (parse_failure_keeps_removal (demo_env demo_config 2 "")
           "hosts.azure_arc.yml" true demo_fs ∅ _ (demo_end demo_config 2 "")
           demo_config "/tmp/azure_arc_ssh_config" "Host stale"
           demo_list_command 2 "machines").
  - reflexivity.
  - vm_compute. reflexivity.
  - vm_compute. reflexivity.
  - vm_compute. reflexivity.
  - apply list_elem_of_lookup_2 with (i := 1). vm_compute. reflexivity.
  - by eexists.
  - done.
Defined.

(** The stale output file is removed first in the run in which every command succeeds. *)
Lemma parse_resets_output_witness :
  (∀ content, demo_fs !! "/tmp/azure_arc_ssh_config" = Some (File content) →
     ∃ tr, trace (demo_end demo_config 0 "") = EvRemove "/tmp/azure_arc_ssh_config" :: tr
           ∧ Forall is_spawn tr
           ∧ match tr with
             | [] => fs (demo_end demo_config 0 "")
                     = delete "/tmp/azure_arc_ssh_config" demo_fs
             | ev :: _ =>
                 ∃ cmd, ev = EvSpawn cmd
                   (spawn (demo_env demo_config 0 "") [EvRemove "/tmp/azure_arc_ssh_config"]
                      cmd (delete "/tmp/azure_arc_ssh_config" demo_fs)).1
             end)
  ∧ (demo_fs !! "/tmp/azure_arc_ssh_config" = None →
     Forall is_spawn (trace (demo_end demo_config 0 ""))
     ∧ ∀ q, EvRemove q ∉ trace (demo_end demo_config 0 "")).
Proof.
  apply (parse_resets_output (demo_env demo_config 0 "") "hosts.azure_arc.yml" true
           demo_fs ∅ (parse (demo_env demo_config 0 "") "hosts.azure_arc.yml" true
                        (start demo_fs ∅)).1
           (demo_end demo_config 0 "") demo_config "/tmp/azure_arc_ssh_config").
  - reflexivity.
  - split; vm_compute; reflexivity.
  - vm_compute. reflexivity.
  - vm_compute. reflexivity.
Defined.

(** C1 as stated fails: when the generation command of [db1] exits with 1,
    the listing returned two machine records and the run leaves one host. *)
Lemma parse_registers_listed_counterexample : ¬ every_listed_machine_registered.
Proof.
  intros Hall.
  destruct (Hall (demo_env demo_config 0 "db1") "hosts.azure_arc.yml" true demo_fs ∅
              (parse (demo_env demo_config 0 "db1") "hosts.azure_arc.yml" true
                 (start demo_fs ∅)).1
              (demo_end demo_config 0 "db1") demo_list_command "machines"
              demo_records ["web1"; "db1"]) as [_ Hsize].
  - vm_compute. reflexivity.
  - apply list_elem_of_lookup_2 with (i := 1). vm_compute. reflexivity.
  - by eexists.
  - reflexivity.
  - repeat constructor; eexists; (split; [reflexivity | vm_compute; reflexivity]).
  - apply (bool_decide_unpack _). vm_compute. exact I.
  - intros n Hn. split; [| apply lookup_empty].
    intros ->. revert Hn. apply (bool_decide_unpack _). vm_compute. exact I.
  - vm_compute in Hsize. discriminate Hsize.
Qed.

(** * Further properties *)

(** ** [verify_file] on prefixes and short paths *)

(** X1: the check looks at the end of the path only: a path that is accepted
    stays accepted under any directory put before it. *)
Theorem verify_file_prefix (dir path : string) :
  verify_file path = true → verify_file (dir +:+ path) = true.
Proof.
  unfold verify_file, endswith_any. cbn [existsb].
  rewrite !orb_false_r, !orb_true_iff, !endswith_spec.
  intros [[pre ->] | [pre ->]]; [left | right]; exists (dir +:+ pre);
    by rewrite append_assoc.
Qed.

(** X2: a path of less than 13 characters, the length of ["azure_arc.yml"],
    is refused. *)
Theorem verify_file_short (path : string) :
  String.length path < 13 → verify_file path = false.
Proof.
  intros Hlen. unfold verify_file, endswith_any, endswith. cbn [existsb String.length].
  rewrite !(proj2 (Nat.leb_gt _ _)) by lia. done.
Qed.

(** ** The command lines *)

Section CommandLines.

(** The optional arguments are accepted when the subscription is absent or
    a string, and only then. *)
Lemma as_strs_subscription (l : list pyval) (sub : pyval) (cmd : list string) :
  as_strs (if negb (is_none sub) then l ++ [PyStr "--subscription"; sub] else l)
    = Some cmd →
  ∃ s c, sub = opt_str s ∧ as_strs l = Some c ∧ cmd = c ++ subscription_args s.
Proof.
  destruct sub as [| b | z | s | l' | d]; cbn [negb is_none]; intros H.
  - exists None, cmd. by rewrite app_nil_r.
  - exfalso. revert cmd H. induction l as [|v l IH]; intros cmd H; [done |].
    apply as_strs_cons in H as (? & rest & -> & H & ->). by eapply IH.
  - exfalso. revert cmd H. induction l as [|v l IH]; intros cmd H; [done |].
    apply as_strs_cons in H as (? & rest & -> & H & ->). by eapply IH.
  - revert cmd H. induction l as [|v l IH]; intros cmd H.
    + injection H as <-. by exists (Some s), [].
    + apply as_strs_cons in H as (x & rest & -> & H & ->).
      destruct (IH _ H) as (s' & c & Hs & Hc & ->).
      exists s', (x :: c). cbn [as_strs]. by rewrite Hc.
  - exfalso. revert cmd H. induction l as [|v l IH]; intros cmd H; [done |].
    apply as_strs_cons in H as (? & rest & -> & H & ->). by eapply IH.
  - exfalso. revert cmd H. induction l as [|v l IH]; intros cmd H; [done |].
    apply as_strs_cons in H as (? & rest & -> & H & ->). by eapply IH.
Qed.

Lemma list_command_strs (g : string) (sub : option string) :
  as_strs (list_command (PyStr g) (opt_str sub)) = Some (az_list_command g sub).
Proof. by destruct sub. Qed.

Lemma ssh_config_command_strs (n g u k p : string) (sub : option string) :
  as_strs (ssh_config_command (PyStr n) (PyStr g) (PyStr u) (PyStr k) (PyStr p)
             (opt_str sub))
  = Some (az_ssh_config_command n g u k p sub).
Proof. by destruct sub. Qed.

Lemma as_strs_list_command_inv (rg sub : pyval) (cmd : list string) :
  as_strs (list_command rg sub) = Some cmd →
  ∃ g s, rg = PyStr g ∧ sub = opt_str s ∧ cmd = az_list_command g s.
Proof.
  unfold list_command. intros H.
  apply as_strs_subscription in H as (s & c & -> & Hc & ->).
  apply as_strs_cons_str in Hc as (r1 & Hc & ->).
  apply as_strs_cons_str in Hc as (r2 & Hc & ->).
  apply as_strs_cons_str in Hc as (r3 & Hc & ->).
  apply as_strs_cons_str in Hc as (r4 & Hc & ->).
  apply as_strs_cons in Hc as (g & r5 & -> & Hc & ->).
  apply as_strs_cons_str in Hc as (r6 & Hc & ->).
  apply as_strs_cons_str in Hc as (r7 & [= <-] & ->).
  by exists g, s.
Qed.

Lemma as_strs_ssh_config_command_inv (vm rg user key cfp sub : pyval) (cmd : list string) :
  as_strs (ssh_config_command vm rg user key cfp sub) = Some cmd →
  ∃ n g u k p s,
    vm = PyStr n ∧ rg = PyStr g ∧ user = PyStr u ∧ key = PyStr k ∧ cfp = PyStr p
    ∧ sub = opt_str s ∧ cmd = az_ssh_config_command n g u k p s.
Proof.
  unfold ssh_config_command. intros H.
  apply as_strs_subscription in H as (s & c & -> & Hc & ->).
  apply as_strs_cons_str in Hc as (r1 & Hc & ->).
  apply as_strs_cons_str in Hc as (r2 & Hc & ->).
  apply as_strs_cons_str in Hc as (r3 & Hc & ->).
  apply as_strs_cons_str in Hc as (r4 & Hc & ->).
  apply as_strs_cons in Hc as (n & r5 & -> & Hc & ->).
  apply as_strs_cons_str in Hc as (r6 & Hc & ->).
  apply as_strs_cons in Hc as (g & r7 & -> & Hc & ->).
  apply as_strs_cons_str in Hc as (r8 & Hc & ->).
  apply as_strs_cons in Hc as (u & r9 & -> & Hc & ->).
  apply as_strs_cons_str in Hc as (r10 & Hc & ->).
  apply as_strs_cons in Hc as (k & r11 & -> & Hc & ->).
  apply as_strs_cons_str in Hc as (r12 & Hc & ->).
  apply as_strs_cons in Hc as (p & r13 & -> & [= <-] & ->).
  by exists n, g, u, k, p, s.
Qed.

End CommandLines.

(** ** What [get_arc_machines] returns *)

Section Listing.

Variable E : env.

Lemma names_of_missing (pre post : list pyval) (d : gmap string pyval) :
  Forall has_name pre → d !! "name" = None →
  names_of (pre ++ PyDict d :: post) = Err (KeyError "name").
Proof.
  intros Hpre Hd. induction Hpre as [| item pre (d' & v & -> & Hv) _ IH].
  - cbn [app names_of py_getitem]. by rewrite Hd.
  - cbn [app names_of py_getitem]. by rewrite Hv, IH.
Qed.

(** A listing command that exits with 0. *)
Lemma get_arc_machines_exit_0 (g : string) (sub : option string) (w : world)
    (out : string) (fs' : filesystem) :
  spawn E (trace w) (az_list_command g sub) (fs w) = (Exited 0 out, fs') →
  get_arc_machines E (PyStr g) (opt_str sub) w =
    (match listed E out with
     | Ok names => Ok (machine_of <$> names)
     | Err e => Err e
     end, spawned w (az_list_command g sub) (Exited 0 out) fs').
Proof.
  intros Hspawn. rewrite get_arc_machines_run, list_command_strs, Hspawn. done.
Qed.

End Listing.

(** X3: when the listing command exits with 0 and prints a JSON list of
    machine records, [get_arc_machines] returns one record per machine, in
    the order of the listing, that holds the name and nothing else of the
    record; the command was run once and the inventory is untouched. *)
Theorem get_arc_machines_records (E : env) (g : string) (sub : option string)
    (w : world) (out : string) (fs' : filesystem)
    (recs : list pyval) (names : list string) :
  spawn E (trace w) (az_list_command g sub) (fs w) = (Exited 0 out, fs') →
  json_loads E out = Some (PyList recs) →
  Forall2 machine_record recs names →
  get_arc_machines E (PyStr g) (opt_str sub) w =
    (Ok ((λ n, PyDict {[ "name" := PyStr n ]}) <$> names),
     {| fs := fs'; inv := inv w;
        trace := trace w ++ [EvSpawn (az_list_command g sub) (Exited 0 out)] |}).
Proof.
  intros Hspawn Hjson Hrecs. rewrite (get_arc_machines_exit_0 E _ _ _ _ _ Hspawn).
  unfold listed. rewrite Hjson. cbn [py_iter].
  rewrite (names_of_records _ _ Hrecs). unfold spawned.
  by rewrite <- list_fmap_compose.
Qed.

(** X4: an item of the listing without a [name] makes [get_arc_machines]
    raise [KeyError]: the [except] clause does not catch it, so it is not
    wrapped in the message of a failed listing. *)
Theorem get_arc_machines_missing_name (E : env) (g : string) (sub : option string)
    (w : world) (out : string) (fs' : filesystem)
    (pre post : list pyval) (d : gmap string pyval) :
  spawn E (trace w) (az_list_command g sub) (fs w) = (Exited 0 out, fs') →
  json_loads E out = Some (PyList (pre ++ PyDict d :: post)) →
  Forall has_name pre →
  d !! "name" = None →
  get_arc_machines E (PyStr g) (opt_str sub) w =
    (Err (KeyError "name"), spawned w (az_list_command g sub) (Exited 0 out) fs').
Proof.
  intros Hspawn Hjson Hpre Hd. rewrite (get_arc_machines_exit_0 E _ _ _ _ _ Hspawn).
  unfold listed. rewrite Hjson. cbn [py_iter].
  by rewrite (names_of_missing _ _ _ Hpre Hd).
Qed.

(** X5: an output that is not JSON makes [get_arc_machines] raise the error
    of [json.loads], not wrapped either. *)
Theorem get_arc_machines_not_json (E : env) (g : string) (sub : option string)
    (w : world) (out : string) (fs' : filesystem) :
  spawn E (trace w) (az_list_command g sub) (fs w) = (Exited 0 out, fs') →
  json_loads E out = None →
  get_arc_machines E (PyStr g) (opt_str sub) w =
    (Err JSONDecodeError, spawned w (az_list_command g sub) (Exited 0 out) fs').
Proof.
  intros Hspawn Hjson. rewrite (get_arc_machines_exit_0 E _ _ _ _ _ Hspawn).
  unfold listed. by rewrite Hjson.
Qed.

(** ** A listing command that exits with 0 *)

Section ListingOk.

Variable E : env.

(** A run in which the listing command is seen to exit with 0 stopped on
    its output or went on with the loop over the names it listed. *)
Lemma parse_run_listing_ok (path : string) (fs0 : filesystem) (inv0 : inventory)
    (r : result unit) (w' : world) (cmd : list string) (out : string) :
  parse_run E path (start fs0 inv0) r w' →
  EvSpawn cmd (Exited 0 out) ∈ trace w' →
  is_list_command cmd →
  ∃ cfg w1 fs2,
    _read_config_data E path = Ok cfg ∧ valid_config cfg
    ∧ reset_output E (config_file_path_of cfg) (start fs0 inv0) = (Ok tt, w1)
    ∧ spawn E (trace w1) cmd (fs w1) = (Exited 0 out, fs2)
    ∧ ((∃ e, listed E out = Err e ∧ r = Err e
             ∧ w' = spawned w1 cmd (Exited 0 out) fs2)
       ∨ (∃ names, listed E out = Ok names
             ∧ loop_run E (resource_group_of cfg) (username_of cfg)
                 (private_key_file_of E cfg) (config_file_path_of cfg)
                 (subscription_id_of cfg) names
                 (spawned w1 cmd (Exited 0 out) fs2) r w')).
Proof.
  intros Hrun Hev Hlist.
  assert (Hquiet : ∀ cfp r1 w1,
    reset_output E cfp (start fs0 inv0) = (r1, w1) →
    EvSpawn cmd (Exited 0 out) ∉ trace w1).
  { intros cfp r1 w1 Hreset Hin. apply reset_output_trace in Hreset.
    rewrite Forall_forall in Hreset. by apply (Hreset _ Hin). }
  inversion Hrun as
    [ w e Hcfg | w cfg Hcfg Hrg | w cfg Hcfg Hrg Huser
    | w cfg e w1 Hcfg Hvalid Hreset
    | w cfg w1 Hcfg Hvalid Hreset Hcmd
    | w cfg w1 lcmd o fs2 e Hcfg Hvalid Hreset Hcmd Hspawn Hfail
    | w cfg w1 lcmd stdout fs2 e Hcfg Hvalid Hreset Hcmd Hspawn Hlisted
    | w cfg w1 lcmd stdout fs2 names r0 w0 Hcfg Hvalid Hreset Hcmd Hspawn Hlisted Hloop ];
    subst.
  - by apply elem_of_nil in Hev.
  - by apply elem_of_nil in Hev.
  - by apply elem_of_nil in Hev.
  - by apply Hquiet in Hreset.
  - by apply Hquiet in Hreset.
  - cbn [spawned trace] in Hev. apply elem_of_app in Hev as [Hev | Hev];
      [by apply Hquiet in Hreset |].
    apply list_elem_of_singleton in Hev as [= <- <-]. done.
  - cbn [spawned trace] in Hev. apply elem_of_app in Hev as [Hev | Hev];
      [by apply Hquiet in Hreset |].
    apply list_elem_of_singleton in Hev as [= <- <-].
    exists cfg, w1, fs2. split_and!; try done. left. by exists e.
  - destruct (loop_run_trace _ _ _ _ _ _ _ _ _ _ Hloop) as (evs & Htrace & Hevs).
    rewrite Htrace in Hev. cbn [spawned trace] in Hev.
    apply elem_of_app in Hev as [Hev | Hev];
      [apply elem_of_app in Hev as [Hev | Hev] |].
    + by apply Hquiet in Hreset.
    + apply list_elem_of_singleton in Hev as [= <- <-].
      exists cfg, w1, fs2. split_and!; try done. right. by exists names.
    + rewrite Forall_forall in Hevs.
      destruct (Hevs _ Hev) as (n & cmd' & o & [= <- <-] & Hcmd').
      by apply ssh_config_not_list in Hcmd'.
Qed.

End ListingOk.

(** X6: when the listing command exits with 0 and its output cannot be read
    (it is not JSON, not a list, or an item has no [name]), [parse] raises the
    very error of the reading, the listing is the last command of the run, and
    the inventory is as it was. *)
Theorem parse_listing_unusable (E : env) (path : string) (cache : bool)
    (fs0 : filesystem) (inv0 : inventory) (r : result unit) (w' : world)
    (cmd : list string) (out : string) (e : exn) :
  parse E path cache (start fs0 inv0) = (r, w') →
  EvSpawn cmd (Exited 0 out) ∈ trace w' →
  is_list_command cmd →
  listed E out = Err e →
  r = Err e
  ∧ inv w' = inv0
  ∧ ∃ tr0, trace w' = tr0 ++ [EvSpawn cmd (Exited 0 out)]
           ∧ Forall (λ ev, ¬ is_spawn ev) tr0.
Proof.
  intros Hrun Hev Hlist Hlisted. apply parse_parse_run in Hrun.
  destruct (parse_run_listing_ok E _ _ _ _ _ _ _ Hrun Hev Hlist)
    as (cfg & w1 & fs2 & _ & _ & Hreset & _ &
        [(e' & He' & -> & ->) | (names & Hnames & _)]); [| congruence].
  rewrite Hlisted in He'. injection He' as <-.
  split_and!; [done | |].
  - cbn [spawned inv]. by apply reset_output_inv in Hreset.
  - exists (trace w1). split; [done |]. by eapply reset_output_trace.
Qed.

(** X7: when the listing command exits with 0 and prints an empty list,
    [parse] completes: no generation command is run and the inventory is as
    it was. *)
Theorem parse_no_machines (E : env) (path : string) (cache : bool)
    (fs0 : filesystem) (inv0 : inventory) (r : result unit) (w' : world)
    (cmd : list string) (out : string) :
  parse E path cache (start fs0 inv0) = (r, w') →
  EvSpawn cmd (Exited 0 out) ∈ trace w' →
  is_list_command cmd →
  json_loads E out = Some (PyList []) →
  r = Ok tt
  ∧ inv w' = inv0
  ∧ ∃ tr0, trace w' = tr0 ++ [EvSpawn cmd (Exited 0 out)]
           ∧ Forall (λ ev, ¬ is_spawn ev) tr0.
Proof.
  intros Hrun Hev Hlist Hjson. apply parse_parse_run in Hrun.
  assert (Hlisted : listed E out = Ok []) by (unfold listed; by rewrite Hjson).
  destruct (parse_run_listing_ok E _ _ _ _ _ _ _ Hrun Hev Hlist)
    as (cfg & w1 & fs2 & _ & _ & Hreset & _ &
        [(e' & He' & _) | (names & Hnames & Hloop)]); [congruence |].
  rewrite Hlisted in Hnames. injection Hnames as <-.
  inversion Hloop; subst.
  split_and!; [done | |].
  - cbn [spawned inv]. by apply reset_output_inv in Hreset.
  - exists (trace w1). split; [done |]. by eapply reset_output_trace.
Qed.

(** ** The inventory after any run *)

Section Inventory.

Variable E : env.

(** Whatever the result of the run, a host either is as it was, or it got
    the three variables of [parse] over the variables it had. *)
Lemma parse_run_inventory (path : string) (fs0 : filesystem) (inv0 : inventory)
    (r : result unit) (w' : world) (h : string) :
  parse_run E path (start fs0 inv0) r w' →
  inv w' !! h = inv0 !! h
  ∨ ∃ cfg g u p,
      _read_config_data E path = Ok cfg
      ∧ resource_group_of cfg = PyStr g ∧ username_of cfg = PyStr u
      ∧ config_file_path_of cfg = PyStr p
      ∧ inv w' !! h =
          Some (host_vars (g +:+ "-" +:+ h +:+ "-" +:+ u) p (default ∅ (inv0 !! h))).
Proof.
  intros Hrun.
  inversion Hrun as
    [ w e Hcfg | w cfg Hcfg Hrg | w cfg Hcfg Hrg Huser
    | w cfg e w1 Hcfg Hvalid Hreset
    | w cfg w1 Hcfg Hvalid Hreset Hcmd
    | w cfg w1 lcmd o fs2 e Hcfg Hvalid Hreset Hcmd Hspawn Hfail
    | w cfg w1 lcmd stdout fs2 e Hcfg Hvalid Hreset Hcmd Hspawn Hlisted
    | w cfg w1 lcmd stdout fs2 names r0 w0 Hcfg Hvalid Hreset Hcmd Hspawn Hlisted Hloop ];
    subst; try (by left);
    try (left; cbn [spawned inv]; by rewrite (reset_output_inv E _ _ _ _ Hreset)).
  destruct (loop_run_outcome E _ _ _ _ _ _ _ _ _ Hloop)
    as (done & rest & evs & tail & _ & Hout & Hin & _).
  cbn [spawned inv] in Hout, Hin.
  rewrite (reset_output_inv E _ _ _ _ Hreset) in Hout, Hin. cbn [start inv] in *.
  destruct (decide (h ∈ done)) as [Hh | Hh].
  - right. destruct (Hin h Hh) as (g & u & p & Hg & Hu & Hp & Hlook).
    by exists cfg, g, u, p.
  - left. by apply Hout.
Qed.

Lemma host_vars_other (a p : string) (old : gmap string pyval) (k : string) :
  ¬ parse_variable k → host_vars a p old !! k = old !! k.
Proof.
  intros Hk. unfold host_vars, parse_variable in *.
  rewrite !lookup_insert_ne; [done | ..]; intros <-; apply Hk; auto.
Qed.

Lemma host_vars_alias (a p : string) (old : gmap string pyval) :
  host_vars a p old !! "ansible_host" = Some (PyStr a).
Proof.
  unfold host_vars.
  rewrite lookup_insert_ne by done. rewrite lookup_insert_ne by done.
  apply lookup_insert_eq.
Qed.

End Inventory.

(** X8: whatever the result of the run, a host that was in the inventory is
    still there, and its variables other than the three [parse] sets are
    what they were. *)
Theorem parse_keeps_hosts (E : env) (path : string) (cache : bool)
    (fs0 : filesystem) (inv0 : inventory) (r : result unit) (w' : world)
    (h : string) (vars0 : gmap string pyval) :
  parse E path cache (start fs0 inv0) = (r, w') →
  inv0 !! h = Some vars0 →
  ∃ vars, inv w' !! h = Some vars
          ∧ ∀ k, ¬ parse_variable k → vars !! k = vars0 !! k.
Proof.
  intros Hrun Hh. apply parse_parse_run in Hrun.
  destruct (parse_run_inventory E _ _ _ _ _ h Hrun)
    as [Hsame | (cfg & g & u & p & _ & _ & _ & _ & Hnew)].
  - exists vars0. split; [congruence | done].
  - eexists. split; [exact Hnew |]. intros k Hk.
    rewrite Hh. cbn [default]. by apply host_vars_other.
Qed.

(** X9: no run leaves a host half configured: whatever the result, even an
    error in the middle of the list, a host the run added has exactly the
    three variables, with their values. *)
Theorem parse_hosts_complete (E : env) (path : string) (cache : bool)
    (fs0 : filesystem) (inv0 : inventory) (r : result unit) (w' : world)
    (cfg : gmap string pyval) (h : string) (vars : gmap string pyval) :
  _read_config_data E path = Ok cfg →
  parse E path cache (start fs0 inv0) = (r, w') →
  inv0 !! h = None →
  inv w' !! h = Some vars →
  ∃ g u p,
    resource_group_of cfg = PyStr g ∧ username_of cfg = PyStr u
    ∧ config_file_path_of cfg = PyStr p
    ∧ vars = {[ "ansible_host" := PyStr (g +:+ "-" +:+ h +:+ "-" +:+ u);
                "ansible_connection" := PyStr "ssh";
                "ansible_ssh_common_args" := PyStr ("-F " +:+ p) ]}.
Proof.
  intros Hcfg Hrun Hfresh Hvars. apply parse_parse_run in Hrun.
  destruct (parse_run_inventory E _ _ _ _ _ h Hrun)
    as [Hsame | (cfg' & g & u & p & Hcfg' & Hg & Hu & Hp & Hnew)].
  - congruence.
  - rewrite Hcfg in Hcfg'. injection Hcfg' as <-.
    exists g, u, p. split_and!; try done.
    rewrite Hnew, Hfresh in Hvars. injection Hvars as <-. apply host_vars_fresh.
Qed.

Lemma append_inj_r (a b c : string) : a +:+ c = b +:+ c → a = b.
Proof.
  revert b. induction a as [|x a IH]; intros [|y b] H.
  - done.
  - exfalso. apply (f_equal String.length) in H.
    rewrite !length_append in H. cbn [String.length] in H. lia.
  - exfalso. apply (f_equal String.length) in H.
    rewrite !length_append in H. cbn [String.length] in H. lia.
  - rewrite !append_cons in H. injection H as -> H. f_equal. by apply IH.
Qed.

(** X10: within a run, the alias is a name of its machine: two hosts the
    run added under different names have different [ansible_host] values. *)
Theorem parse_aliases_distinct (E : env) (path : string) (cache : bool)
    (fs0 : filesystem) (inv0 : inventory) (r : result unit) (w' : world)
    (h1 h2 : string) (vars1 vars2 : gmap string pyval) :
  parse E path cache (start fs0 inv0) = (r, w') →
  inv0 !! h1 = None → inv0 !! h2 = None →
  inv w' !! h1 = Some vars1 → inv w' !! h2 = Some vars2 →
  h1 ≠ h2 →
  vars1 !! "ansible_host" ≠ vars2 !! "ansible_host".
Proof.
  intros Hrun Hf1 Hf2 Hv1 Hv2 Hne. apply parse_parse_run in Hrun.
  destruct (parse_run_inventory E _ _ _ _ _ h1 Hrun)
    as [Hsame | (cfg & g & u & p & Hcfg & Hg & Hu & Hp & Hnew1)]; [congruence |].
  destruct (parse_run_inventory E _ _ _ _ _ h2 Hrun)
    as [Hsame | (cfg' & g' & u' & p' & Hcfg' & Hg' & Hu' & Hp' & Hnew2)]; [congruence |].
  rewrite Hcfg in Hcfg'. injection Hcfg' as <-.
  rewrite Hg in Hg'. rewrite Hu in Hu'. injection Hg' as <-. injection Hu' as <-.
  rewrite Hnew1 in Hv1. rewrite Hnew2 in Hv2.
  injection Hv1 as <-. injection Hv2 as <-.
  rewrite !host_vars_alias. intros [= Heq]. apply Hne.
  apply (inj (String.append g)) in Heq. apply (inj (String.append "-")) in Heq.
  by apply append_inj_r in Heq.
Qed.

(** ** The commands of any run *)

Section Commands.

Variable E : env.

Lemma loop_run_commands (rg user key cfp sub : pyval) (vs : list pyval)
    (w : world) (r : result unit) (w' : world) (cmd : list string) (o : outcome) :
  loop_run E rg user key cfp sub vs w r w' →
  EvSpawn cmd o ∈ trace w' →
  EvSpawn cmd o ∈ trace w
  ∨ ∃ v, v ∈ vs ∧ as_strs (ssh_config_command v rg user key cfp sub) = Some cmd.
Proof.
  induction 1 as [w | v vs w Hcmd | v vs w c o' fs' e Hcmd Hspawn Hfail
                 | n g u p vs w c out fs' r w' Hg Hu Hp Hcmd Hspawn Hrun IH];
    intros Hev.
  - by left.
  - by left.
  - cbn [spawned trace] in Hev. apply elem_of_app in Hev as [Hev | Hev]; [by left |].
    apply list_elem_of_singleton in Hev as [= <- <-].
    right. exists v. split; [left | done].
  - destruct (IH Hev) as [Hin | (v & Hv & Hc)].
    + cbn [registered spawned trace] in Hin.
      apply elem_of_app in Hin as [Hin | Hin]; [by left |].
      apply list_elem_of_singleton in Hin as [= <- _].
      right. exists (PyStr n). split; [left | done].
    + right. exists v. split; [by right | done].
Qed.

(** The commands of a run are the listing command and generation commands,
    on the values of the configuration. *)
Lemma parse_run_commands (path : string) (fs0 : filesystem) (inv0 : inventory)
    (r : result unit) (w' : world) (cmd : list string) (o : outcome) :
  parse_run E path (start fs0 inv0) r w' →
  EvSpawn cmd o ∈ trace w' →
  ∃ cfg, _read_config_data E path = Ok cfg
    ∧ (as_strs (list_command (resource_group_of cfg) (subscription_id_of cfg)) = Some cmd
       ∨ ∃ v, as_strs (ssh_config_command v (resource_group_of cfg) (username_of cfg)
                         (private_key_file_of E cfg) (config_file_path_of cfg)
                         (subscription_id_of cfg)) = Some cmd).
Proof.
  intros Hrun Hev.
  assert (Hquiet : ∀ cfp r1 w1,
    reset_output E cfp (start fs0 inv0) = (r1, w1) → EvSpawn cmd o ∉ trace w1).
  { intros cfp r1 w1 Hreset Hin. apply reset_output_trace in Hreset.
    rewrite Forall_forall in Hreset. by apply (Hreset _ Hin). }
  inversion Hrun as
    [ w e Hcfg | w cfg Hcfg Hrg | w cfg Hcfg Hrg Huser
    | w cfg e w1 Hcfg Hvalid Hreset
    | w cfg w1 Hcfg Hvalid Hreset Hcmd
    | w cfg w1 lcmd o' fs2 e Hcfg Hvalid Hreset Hcmd Hspawn Hfail
    | w cfg w1 lcmd stdout fs2 e Hcfg Hvalid Hreset Hcmd Hspawn Hlisted
    | w cfg w1 lcmd stdout fs2 names r0 w0 Hcfg Hvalid Hreset Hcmd Hspawn Hlisted Hloop ];
    subst.
  - by apply elem_of_nil in Hev.
  - by apply elem_of_nil in Hev.
  - by apply elem_of_nil in Hev.
  - by apply Hquiet in Hreset.
  - by apply Hquiet in Hreset.
  - cbn [spawned trace] in Hev. apply elem_of_app in Hev as [Hev | Hev];
      [by apply Hquiet in Hreset |].
    apply list_elem_of_singleton in Hev as [= <- <-]. exists cfg. auto.
  - cbn [spawned trace] in Hev. apply elem_of_app in Hev as [Hev | Hev];
      [by apply Hquiet in Hreset |].
    apply list_elem_of_singleton in Hev as [= <- _]. exists cfg. auto.
  - exists cfg. split; [done |].
    destruct (loop_run_commands _ _ _ _ _ _ _ _ _ _ _ Hloop Hev) as [Hin | (v & _ & Hc)].
    + cbn [spawned trace] in Hin. apply elem_of_app in Hin as [Hin | Hin];
        [by apply Hquiet in Hreset |].
      apply list_elem_of_singleton in Hin as [= <- _]. auto.
    + right. by exists v.
Qed.

End Commands.

(** X11: [parse] runs nothing but the two [az] commands: every command of a
    run is the listing of the configured resource group or the generation of
    the SSH configuration of a machine with the configured resource group,
    user, key file and output path, and each ends with [--subscription] and the
    subscription exactly when one is configured. *)
Theorem parse_runs_only_az (E : env) (path : string) (cache : bool)
    (fs0 : filesystem) (inv0 : inventory) (r : result unit) (w' : world)
    (cfg : gmap string pyval) (cmd : list string) (o : outcome) :
  _read_config_data E path = Ok cfg →
  parse E path cache (start fs0 inv0) = (r, w') →
  EvSpawn cmd o ∈ trace w' →
  ∃ g sub,
    resource_group_of cfg = PyStr g ∧ subscription_id_of cfg = opt_str sub
    ∧ (cmd = az_list_command g sub
       ∨ ∃ n u k p,
           username_of cfg = PyStr u ∧ private_key_file_of E cfg = PyStr k
           ∧ config_file_path_of cfg = PyStr p
           ∧ cmd = az_ssh_config_command n g u k p sub).
Proof.
  intros Hcfg Hrun Hev. apply parse_parse_run in Hrun.
  destruct (parse_run_commands E _ _ _ _ _ _ _ Hrun Hev) as (cfg' & Hcfg' & Hcmd).
  rewrite Hcfg in Hcfg'. injection Hcfg' as <-.
  destruct Hcmd as [Hcmd | [v Hcmd]].
  - apply as_strs_list_command_inv in Hcmd as (g & s & Hg & Hs & ->).
    exists g, s. auto.
  - apply as_strs_ssh_config_command_inv in Hcmd
      as (n & g & u & k & p & s & _ & Hg & Hu & Hk & Hp & Hs & ->).
    exists g, s. split_and!; try done. right. by exists n, u, k, p.
Qed.

(** X12: the optional paths: a generation command gets the key file and the
    output path of the configuration as they are written there (a [~] in a
    configured key file is not expanded), and without them
    [expanduser("~/.ssh/id_rsa")] and ["/tmp/azure_arc_ssh_config"]. *)
Theorem parse_optional_paths (E : env) (path : string) (cache : bool)
    (fs0 : filesystem) (inv0 : inventory) (r : result unit) (w' : world)
    (cfg : gmap string pyval) (cmd : list string) (o : outcome) (n : string) :
  _read_config_data E path = Ok cfg →
  parse E path cache (start fs0 inv0) = (r, w') →
  EvSpawn cmd o ∈ trace w' →
  is_ssh_config_command n cmd →
  ∃ g u k p sub,
    cmd = az_ssh_config_command n g u k p sub
    ∧ (cfg !! "private_key_file" = None → k = expanduser E "~/.ssh/id_rsa")
    ∧ (∀ v, cfg !! "private_key_file" = Some v → v = PyStr k)
    ∧ (cfg !! "config_file_path" = None → p = "/tmp/azure_arc_ssh_config")
    ∧ (∀ v, cfg !! "config_file_path" = Some v → v = PyStr p).
Proof.
  intros Hcfg Hrun Hev Hssh. apply parse_parse_run in Hrun.
  destruct (parse_run_commands E _ _ _ _ _ _ _ Hrun Hev) as (cfg' & Hcfg' & Hcmd).
  rewrite Hcfg in Hcfg'. injection Hcfg' as <-.
  destruct Hcmd as [Hcmd | [v Hcmd]].
  - apply as_strs_list_command in Hcmd as [_ Hlist].
    by apply ssh_config_not_list in Hssh.
  - apply as_strs_ssh_config_command_inv in Hcmd
      as (n' & g & u & k & p & s & _ & _ & _ & Hk & Hp & _ & ->).
    assert (n' = n) as ->.
    { destruct Hssh as [rest [= -> _]]. done. }
    exists g, u, k, p, s. split; [done |].
    unfold private_key_file_of, config_file_path_of, dict_get in Hk, Hp.
    split_and!.
    + intros Hnone. rewrite Hnone in Hk. by injection Hk.
    + intros x Hx. by rewrite Hx in Hk.
    + intros Hnone. rewrite Hnone in Hp. by injection Hp.
    + intros x Hx. by rewrite Hx in Hp.
Qed.

(** ** Errors that are not exit codes *)

(** X13: when running a command raises something else than
    [CalledProcessError] (the executable is missing, say), [parse] raises
    that error as it is, without the message of a failed command, and runs
    nothing after it. *)
Theorem parse_propagates_raised (E : env) (path : string) (cache : bool)
    (fs0 : filesystem) (inv0 : inventory) (r : result unit) (w' : world)
    (cmd : list string) (e : exn) :
  parse E path cache (start fs0 inv0) = (r, w') →
  EvSpawn cmd (Raised e) ∈ trace w' →
  not_cpe e →
  r = Err e ∧ ∃ tr, trace w' = tr ++ [EvSpawn cmd (Raised e)].
Proof.
  intros Hrun Hev Hcpe. apply parse_parse_run in Hrun.
  assert (Hfailure : ∀ prefix c e', failure E prefix c (Raised e) = Some e' → e' = e).
  { intros prefix c e'. destruct e; cbn [failure]; by intros [= <-]. }
  assert (Hquiet : ∀ cfp r1 w1,
    reset_output E cfp (start fs0 inv0) = (r1, w1) →
    EvSpawn cmd (Raised e) ∉ trace w1).
  { intros cfp r1 w1 Hreset Hin. apply reset_output_trace in Hreset.
    rewrite Forall_forall in Hreset. by apply (Hreset _ Hin). }
  inversion Hrun as
    [ w e0 Hcfg | w cfg Hcfg Hrg | w cfg Hcfg Hrg Huser
    | w cfg e0 w1 Hcfg Hvalid Hreset
    | w cfg w1 Hcfg Hvalid Hreset Hcmd
    | w cfg w1 lcmd o fs2 e0 Hcfg Hvalid Hreset Hcmd Hspawn Hfail
    | w cfg w1 lcmd stdout fs2 e0 Hcfg Hvalid Hreset Hcmd Hspawn Hlisted
    | w cfg w1 lcmd stdout fs2 names r0 w0 Hcfg Hvalid Hreset Hcmd Hspawn Hlisted Hloop ];
    subst.
  - by apply elem_of_nil in Hev.
  - by apply elem_of_nil in Hev.
  - by apply elem_of_nil in Hev.
  - by apply Hquiet in Hreset.
  - by apply Hquiet in Hreset.
  - cbn [spawned trace] in Hev. apply elem_of_app in Hev as [Hev | Hev];
      [by apply Hquiet in Hreset |].
    apply list_elem_of_singleton in Hev as [= <- <-].
    apply Hfailure in Hfail as ->. split; [done |]. by eexists.
  - cbn [spawned trace] in Hev. apply elem_of_app in Hev as [Hev | Hev];
      [by apply Hquiet in Hreset |].
    by apply list_elem_of_singleton in Hev.
  - destruct (loop_run_outcome E _ _ _ _ _ _ _ _ _ Hloop)
      as (done & rest & evs & tail & _ & _ & _ & Htrace & Hevs & Hr).
    cbn [spawned trace] in Htrace.
    assert (Htail : EvSpawn cmd (Raised e) ∈ tail).
    { rewrite Htrace in Hev.
      apply elem_of_app in Hev as [Hev | Hev];
        [apply elem_of_app in Hev as [Hev | Hev] |].
      - by apply Hquiet in Hreset.
      - by apply list_elem_of_singleton in Hev.
      - apply elem_of_app in Hev as [Hev | Hev]; [| done].
        by destruct (generated_events _ _ _ Hevs Hev) as (m & c & o & _ & [=] & _). }
    destruct r as [[] | e'].
    { destruct Hr as [_ ->]. by apply elem_of_nil in Htail. }
    destruct Hr as (v & rest' & _ &
      [-> | (m & c & o & g & u & p & _ & _ & _ & _ & _ & -> & Hfail)]);
      [by apply elem_of_nil in Htail |].
    apply list_elem_of_singleton in Htail as [= <- <-].
    apply Hfailure in Hfail as ->. split; [done |].
    rewrite Htrace. rewrite !app_assoc. by eexists.
Qed.

(** ** Order and number of the side effects *)

(** X14: [parse] removes nothing but the output file: a removal in a run is
    the removal of the configured output path, where a file was, and it is the
    first side effect, followed by commands only. *)
Theorem parse_removes_only_output (E : env) (path : string) (cache : bool)
    (fs0 : filesystem) (inv0 : inventory) (r : result unit) (w' : world)
    (cfg : gmap string pyval) (q : string) :
  _read_config_data E path = Ok cfg →
  parse E path cache (start fs0 inv0) = (r, w') →
  EvRemove q ∈ trace w' →
  config_file_path_of cfg = PyStr q
  ∧ (∃ content, fs0 !! q = Some (File content))
  ∧ ∃ tr, trace w' = EvRemove q :: tr ∧ Forall is_spawn tr.
Proof.
  intros Hcfg Hrun Hev. apply parse_parse_run in Hrun.
  assert (Hvalid : valid_config cfg).
  { inversion Hrun as
      [ w e Hcfg' | w cfg' Hcfg' Hrg | w cfg' Hcfg' Hrg Huser
      | w cfg' e w1 Hcfg' Hvalid Hreset
      | w cfg' w1 Hcfg' Hvalid Hreset Hcmd
      | w cfg' w1 lcmd o fs2 e Hcfg' Hvalid Hreset Hcmd Hspawn Hfail
      | w cfg' w1 lcmd stdout fs2 e Hcfg' Hvalid Hreset Hcmd Hspawn Hlisted
      | w cfg' w1 lcmd stdout fs2 names r0 w0 Hcfg' Hvalid Hreset Hcmd Hspawn Hlisted Hloop ];
      subst; try (by apply elem_of_nil in Hev);
      rewrite Hcfg in Hcfg'; by injection Hcfg' as <-. }
  destruct (parse_run_after_reset E _ _ _ _ _ Hrun Hcfg Hvalid)
    as (r1 & w1 & tr & Hreset & Htrace & Htr & _).
  apply reset_output_run in Hreset as [(p & c & Hp & Hfile & _ & ->) | [-> _]];
    cbn [removed start trace fs app] in *.
  - rewrite Htrace in Hev. apply elem_of_cons in Hev as [[= ->] | Hev].
    + split_and!; [done | by exists c | by exists tr].
    + rewrite Forall_forall in Htr. by destruct (Htr _ Hev).
  - rewrite Htrace in Hev. rewrite Forall_forall in Htr. by destruct (Htr _ Hev).
Qed.

(** X15: a run that completes ran the listing command once and then one
    generation command for each listed machine, in the order of the listing,
    each exiting with 0. *)
Theorem parse_commands_in_order (E : env) (path : string) (cache : bool)
    (fs0 : filesystem) (inv0 : inventory) (w' : world) :
  parse E path cache (start fs0 inv0) = (Ok tt, w') →
  ∃ tr0 cmd out names evs,
    Forall (λ ev, ¬ is_spawn ev) tr0
    ∧ is_list_command cmd
    ∧ listed E out = Ok (PyStr <$> names)
    ∧ trace w' = tr0 ++ EvSpawn cmd (Exited 0 out) :: evs
    ∧ Forall2 generated names evs
    ∧ length evs = length names.
Proof.
  intros Hrun. apply parse_parse_run in Hrun.
  destruct (parse_run_completed E _ _ _ _ Hrun)
    as (cfg & w1 & cmd & out & names & evs & _ & Hquiet & Hlist & Hlisted & Htrace
        & Hevs & _).
  exists (trace w1), cmd, out, names, evs. split_and!; try done.
  symmetry. by eapply Forall2_length.
Qed.

(** ** The file system *)

Section FileSystem.

Variable E : env.

(** Commands that leave the file system alone. *)
Hypothesis spawn_fs : ∀ tr cmd fs0, (spawn E tr cmd fs0).2 = fs0.

Lemma loop_run_fs (rg user key cfp sub : pyval) (vs : list pyval)
    (w : world) (r : result unit) (w' : world) :
  loop_run E rg user key cfp sub vs w r w' → fs w' = fs w.
Proof.
  induction 1 as [w | v vs w Hcmd | v vs w c o fs' e Hcmd Hspawn Hfail
                 | n g u p vs w c out fs' r w' Hg Hu Hp Hcmd Hspawn Hrun IH].
  - done.
  - done.
  - cbn [spawned fs]. by rewrite <- (spawn_fs (trace w) c (fs w)), Hspawn.
  - rewrite IH. cbn [registered spawned fs].
    by rewrite <- (spawn_fs (trace w) c (fs w)), Hspawn.
Qed.

Lemma parse_run_fs (path : string) (fs0 : filesystem) (inv0 : inventory)
    (r : result unit) (w' : world) :
  parse_run E path (start fs0 inv0) r w' →
  fs w' = fs0
  ∨ ∃ cfg p content, _read_config_data E path = Ok cfg
      ∧ config_file_path_of cfg = PyStr p ∧ fs0 !! p = Some (File content)
      ∧ fs w' = delete p fs0.
Proof.
  intros Hrun.
  assert (Hreset : ∀ cfg r1 w1,
    _read_config_data E path = Ok cfg →
    reset_output E (config_file_path_of cfg) (start fs0 inv0) = (r1, w1) →
    fs w1 = fs0
    ∨ ∃ cfg p content, _read_config_data E path = Ok cfg
        ∧ config_file_path_of cfg = PyStr p ∧ fs0 !! p = Some (File content)
        ∧ fs w1 = delete p fs0).
  { intros cfg r1 w1 Hcfg Hr.
    apply reset_output_run in Hr as [(p & c & Hp & Hfile & _ & ->) | [-> _]].
    - right. by exists cfg, p, c.
    - by left. }
  assert (Hspawned : ∀ w1 cmd o fs2,
    spawn E (trace w1) cmd (fs w1) = (o, fs2) → fs (spawned w1 cmd o fs2) = fs w1).
  { intros w1 cmd o fs2 Hs. cbn [spawned fs].
    by rewrite <- (spawn_fs (trace w1) cmd (fs w1)), Hs. }
  inversion Hrun as
    [ w e Hcfg | w cfg Hcfg Hrg | w cfg Hcfg Hrg Huser
    | w cfg e w1 Hcfg Hvalid Hr
    | w cfg w1 Hcfg Hvalid Hr Hcmd
    | w cfg w1 lcmd o fs2 e Hcfg Hvalid Hr Hcmd Hspawn Hfail
    | w cfg w1 lcmd stdout fs2 e Hcfg Hvalid Hr Hcmd Hspawn Hlisted
    | w cfg w1 lcmd stdout fs2 names r0 w0 Hcfg Hvalid Hr Hcmd Hspawn Hlisted Hloop ];
    subst; try (by left); try (by eapply Hreset).
  - rewrite (Hspawned _ _ _ _ Hspawn). by eapply Hreset.
  - rewrite (Hspawned _ _ _ _ Hspawn). by eapply Hreset.
  - rewrite (loop_run_fs _ _ _ _ _ _ _ _ _ Hloop), (Hspawned _ _ _ _ Hspawn).
    by eapply Hreset.
Qed.

End FileSystem.

(** X16: [parse] writes no file itself: when the commands leave the file
    system as it is, the file system after the run is the one before it, or
    the one before it without the file at the configured output path. *)
Theorem parse_writes_nothing (E : env) (path : string) (cache : bool)
    (fs0 : filesystem) (inv0 : inventory) (r : result unit) (w' : world) :
  (∀ tr cmd fs1, (spawn E tr cmd fs1).2 = fs1) →
  parse E path cache (start fs0 inv0) = (r, w') →
  fs w' = fs0
  ∨ ∃ cfg p content, _read_config_data E path = Ok cfg
      ∧ config_file_path_of cfg = PyStr p ∧ fs0 !! p = Some (File content)
      ∧ fs w' = delete p fs0.
Proof.
  intros Hspawn Hrun. apply parse_parse_run in Hrun. by eapply parse_run_fs.
Qed.

(** ** Names listed more than once *)

Lemma size_list_to_set_le (l : list string) :
  size (list_to_set l : gset string) ≤ length l.
Proof.
  induction l as [|n l IH]; cbn [list_to_set foldr length].
  - by rewrite size_empty.
  - rewrite size_union_alt, size_singleton.
    assert (size (list_to_set l ∖ {[n]} : gset string) ≤ size (list_to_set l : gset string))
      by (apply subseteq_size, subseteq_difference_l; reflexivity).
    lia.
Qed.

(** X17: the hosts after a run that completes are the hosts before it and
    the names of the listing, also when a name is listed twice or is in the
    inventory already; the run adds at most as many hosts as there are
    records. *)
Theorem parse_hosts_after_completed (E : env) (path : string) (cache : bool)
    (fs0 : filesystem) (inv0 : inventory) (w' : world)
    (cmd : list string) (out : string) (recs : list pyval) (names : list string) :
  parse E path cache (start fs0 inv0) = (Ok tt, w') →
  EvSpawn cmd (Exited 0 out) ∈ trace w' →
  is_list_command cmd →
  json_loads E out = Some (PyList recs) →
  Forall2 machine_record recs names →
  dom (inv w') = dom inv0 ∪ list_to_set names
  ∧ size (dom (inv w')) ≤ size (dom inv0) + length recs.
Proof.
  intros Hrun Hev Hlist Hjson Hrecs. apply parse_parse_run in Hrun.
  destruct (parse_run_completed E _ _ _ _ Hrun)
    as (cfg & w1 & cmd' & stdout & names' & evs
        & _ & Hquiet & _ & Hlisted & Htrace & Hevs & Hout & Hin).
  assert (stdout = out) as ->.
  { rewrite Htrace in Hev. apply elem_of_app in Hev as [Hev | Hev].
    - rewrite Forall_forall in Hquiet. by destruct (Hquiet _ Hev).
    - apply elem_of_cons in Hev as [[= _ <-] | Hev]; [done |].
      destruct (generated_events _ _ _ Hevs Hev) as (n & c & o & _ & [= <- _] & Hc).
      by apply ssh_config_not_list in Hc. }
  assert (names' = names) as ->.
  { apply PyStr_fmap_inj. unfold listed in Hlisted. rewrite Hjson in Hlisted.
    cbn [py_iter] in Hlisted. rewrite (names_of_records _ _ Hrecs) in Hlisted.
    by injection Hlisted. }
  assert (Hdom : dom (inv w') = dom inv0 ∪ list_to_set names).
  { apply set_eq. intros h.
    rewrite elem_of_union, !elem_of_dom, elem_of_list_to_set.
    destruct (decide (h ∈ names)) as [Hh | Hh].
    - destruct (Hin h Hh) as (g & u & p & _ & _ & _ & ->). split; eauto.
    - rewrite (Hout h Hh). split; [by left | by intros [? | ?]]. }
  split; [done |].
  rewrite Hdom, size_union_alt, (Forall2_length _ _ _ Hrecs).
  assert (size (list_to_set names ∖ dom inv0 : gset string) ≤ length names); [| lia].
  etrans; [apply subseteq_size, subseteq_difference_l; reflexivity |].
  apply size_list_to_set_le.
Qed.

(** ** The further properties on the resource group with two machines *)

(** A configuration file in a directory. *)
Lemma verify_file_prefix_witness : verify_file ("inventory/" +:+ "prod.azure_arc.yml") = true.
Proof. apply (verify_file_prefix "inventory/" "prod.azure_arc.yml"). reflexivity. Defined.

(** A path of seven characters. *)
Lemma verify_file_short_witness : verify_file "arc.yml" = false.
Proof. apply (verify_file_short "arc.yml"). cbn [String.length]. lia. Defined.

(** The records of [web1] and [db1], without the location of [web1]. *)
Lemma get_arc_machines_records_witness :
  get_arc_machines (demo_env demo_config 0 "") (PyStr "rg") (opt_str None)
    (start demo_fs ∅)
  = (Ok ((λ n, PyDict {[ "name" := PyStr n ]}) <$> ["web1"; "db1"]),
     {| fs := demo_fs; inv := inv (start demo_fs ∅);
        trace := trace (start demo_fs ∅)
                 ++ [EvSpawn (az_list_command "rg" None) (Exited 0 "machines")] |}).
Proof.
  apply (get_arc_machines_records (demo_env demo_config 0 "") "rg" None
           (start demo_fs ∅) "machines" demo_fs demo_records ["web1"; "db1"]).
  - reflexivity.
  - reflexivity.
  - repeat constructor; eexists; (split; [reflexivity | vm_compute; reflexivity]).
Defined.

(** A listing whose second item has no name. *)
Lemma get_arc_machines_missing_name_witness :
  get_arc_machines (with_json (demo_env demo_config 0 "") (λ _, Some (PyList demo_nameless)))
    (PyStr "rg") (opt_str None) (start demo_fs ∅)
  = (Err (KeyError "name"),
     spawned (start demo_fs ∅) (az_list_command "rg" None) (Exited 0 "machines") demo_fs).
Proof.
  apply (get_arc_machines_missing_name
           (with_json (demo_env demo_config 0 "") (λ _, Some (PyList demo_nameless)))
           "rg" None (start demo_fs ∅) "machines" demo_fs
           [PyDict {[ "name" := PyStr "web1" ]}] [] {[ "id" := PyStr "42" ]}).
  - reflexivity.
  - reflexivity.
  - repeat constructor. eexists _, _. split; [reflexivity | vm_compute; reflexivity].
  - vm_compute. reflexivity.
Defined.

(** An output that is not JSON. *)
Lemma get_arc_machines_not_json_witness :
  get_arc_machines (with_json (demo_env demo_config 0 "") (λ _, None))
    (PyStr "rg") (opt_str None) (start demo_fs ∅)
  = (Err JSONDecodeError,
     spawned (start demo_fs ∅) (az_list_command "rg" None) (Exited 0 "machines") demo_fs).
Proof.
  apply (get_arc_machines_not_json (with_json (demo_env demo_config 0 "") (λ _, None))
           "rg" None (start demo_fs ∅) "machines" demo_fs).
  - reflexivity.
  - reflexivity.
Defined.

(** The run on an output that is not JSON. *)
Lemma parse_listing_unusable_witness :
  (demo_run (with_json (demo_env demo_config 0 "") (λ _, None)) ∅).1 = Err JSONDecodeError
  ∧ inv (demo_run (with_json (demo_env demo_config 0 "") (λ _, None)) ∅).2 = ∅
  ∧ ∃ tr0, trace (demo_run (with_json (demo_env demo_config 0 "") (λ _, None)) ∅).2
           = tr0 ++ [EvSpawn demo_list_command (Exited 0 "machines")]
           ∧ Forall (λ ev, ¬ is_spawn ev) tr0.
Proof.
  apply (parse_listing_unusable (with_json (demo_env demo_config 0 "") (λ _, None))
           "hosts.azure_arc.yml" true demo_fs ∅
           (demo_run (with_json (demo_env demo_config 0 "") (λ _, None)) ∅).1
           (demo_run (with_json (demo_env demo_config 0 "") (λ _, None)) ∅).2
           demo_list_command "machines" JSONDecodeError).
  - vm_compute. reflexivity.
  - apply list_elem_of_lookup_2 with (i := 1). vm_compute. reflexivity.
  - by eexists.
  - reflexivity.
Defined.

(** The run on an empty listing. *)
Lemma parse_no_machines_witness :
  (demo_run (with_json (demo_env demo_config 0 "") (λ _, Some (PyList []))) ∅).1 = Ok tt
  ∧ inv (demo_run (with_json (demo_env demo_config 0 "") (λ _, Some (PyList []))) ∅).2 = ∅
  ∧ ∃ tr0,
      trace (demo_run (with_json (demo_env demo_config 0 "") (λ _, Some (PyList []))) ∅).2
      = tr0 ++ [EvSpawn demo_list_command (Exited 0 "machines")]
      ∧ Forall (λ ev, ¬ is_spawn ev) tr0.
Proof.
  apply (parse_no_machines
           (with_json (demo_env demo_config 0 "") (λ _, Some (PyList [])))
           "hosts.azure_arc.yml" true demo_fs ∅
           (demo_run (with_json (demo_env demo_config 0 "") (λ _, Some (PyList []))) ∅).1
           (demo_run (with_json (demo_env demo_config 0 "") (λ _, Some (PyList []))) ∅).2
           demo_list_command "machines").
  - vm_compute. reflexivity.
  - apply list_elem_of_lookup_2 with (i := 1). vm_compute. reflexivity.
  - by eexists.
  - reflexivity.
Defined.

(** The owner of [web1], set before the run, is kept. *)
Lemma parse_keeps_hosts_witness :
  ∃ vars,
    inv (demo_run (demo_env demo_config 0 "") {[ "web1" := {[ "owner" := PyStr "ops" ]} ]}).2
      !! "web1" = Some vars
    ∧ ∀ k, ¬ parse_variable k →
           vars !! k = ({[ "owner" := PyStr "ops" ]} : gmap string pyval) !! k.
Proof.
  apply (parse_keeps_hosts (demo_env demo_config 0 "") "hosts.azure_arc.yml" true demo_fs
           {[ "web1" := {[ "owner" := PyStr "ops" ]} ]}
           (demo_run (demo_env demo_config 0 "")
              {[ "web1" := {[ "owner" := PyStr "ops" ]} ]}).1
           (demo_run (demo_env demo_config 0 "")
              {[ "web1" := {[ "owner" := PyStr "ops" ]} ]}).2
           "web1").
  - vm_compute. reflexivity.
  - vm_compute. reflexivity.
Defined.

(** [web1] after the run that stops on [db1]. *)
Lemma parse_hosts_complete_witness :
  ∃ g u p,
    resource_group_of demo_config = PyStr g ∧ username_of demo_config = PyStr u
    ∧ config_file_path_of demo_config = PyStr p
    ∧ host_vars "rg-web1-admin" "/tmp/azure_arc_ssh_config" ∅
      = {[ "ansible_host" := PyStr (g +:+ "-" +:+ "web1" +:+ "-" +:+ u);
           "ansible_connection" := PyStr "ssh";
           "ansible_ssh_common_args" := PyStr ("-F " +:+ p) ]}.
Proof.
  apply (parse_hosts_complete (demo_env demo_config 0 "db1") "hosts.azure_arc.yml" true
           demo_fs ∅ (demo_run (demo_env demo_config 0 "db1") ∅).1
           (demo_run (demo_env demo_config 0 "db1") ∅).2 demo_config "web1").
  - reflexivity.
  - vm_compute. reflexivity.
  - apply lookup_empty.
  - vm_compute. reflexivity.
Defined.

(** The aliases of [web1] and [db1]. *)
Lemma parse_aliases_distinct_witness :
  host_vars "rg-web1-admin" "/tmp/azure_arc_ssh_config" ∅ !! "ansible_host"
  ≠ host_vars "rg-db1-admin" "/tmp/azure_arc_ssh_config" ∅ !! "ansible_host".
Proof.
  apply (parse_aliases_distinct (demo_env demo_config 0 "") "hosts.azure_arc.yml" true
           demo_fs ∅ (demo_run (demo_env demo_config 0 "") ∅).1
           (demo_run (demo_env demo_config 0 "") ∅).2 "web1" "db1").
  - vm_compute. reflexivity.
  - apply lookup_empty.
  - apply lookup_empty.
  - vm_compute. reflexivity.
  - vm_compute. reflexivity.
  - done.
Defined.

(** The command run for [web1]. *)
Lemma parse_runs_only_az_witness :
  ∃ g sub,
    resource_group_of demo_config = PyStr g ∧ subscription_id_of demo_config = opt_str sub
    ∧ (demo_ssh_config_command "web1" = az_list_command g sub
       ∨ ∃ n u k p,
           username_of demo_config = PyStr u
           ∧ private_key_file_of (demo_env demo_config 0 "") demo_config = PyStr k
           ∧ config_file_path_of demo_config = PyStr p
           ∧ demo_ssh_config_command "web1" = az_ssh_config_command n g u k p sub).
Proof.
  apply (parse_runs_only_az (demo_env demo_config 0 "") "hosts.azure_arc.yml" true
           demo_fs ∅ (demo_run (demo_env demo_config 0 "") ∅).1
           (demo_run (demo_env demo_config 0 "") ∅).2 demo_config
           (demo_ssh_config_command "web1") (Exited 0 "")).
  - reflexivity.
  - vm_compute. reflexivity.
  - apply list_elem_of_lookup_2 with (i := 2). vm_compute. reflexivity.
Defined.

(** The paths in the command run for [web1], none of them configured. *)
Lemma parse_optional_paths_witness :
  ∃ g u k p sub,
    demo_ssh_config_command "web1" = az_ssh_config_command "web1" g u k p sub
    ∧ (demo_config !! "private_key_file" = None →
       k = expanduser (demo_env demo_config 0 "") "~/.ssh/id_rsa")
    ∧ (∀ v, demo_config !! "private_key_file" = Some v → v = PyStr k)
    ∧ (demo_config !! "config_file_path" = None → p = "/tmp/azure_arc_ssh_config")
    ∧ (∀ v, demo_config !! "config_file_path" = Some v → v = PyStr p).
Proof.
  apply (parse_optional_paths (demo_env demo_config 0 "") "hosts.azure_arc.yml" true
           demo_fs ∅ (demo_run (demo_env demo_config 0 "") ∅).1
           (demo_run (demo_env demo_config 0 "") ∅).2 demo_config
           (demo_ssh_config_command "web1") (Exited 0 "") "web1").
  - reflexivity.
  - vm_compute. reflexivity.
  - apply list_elem_of_lookup_2 with (i := 2). vm_compute. reflexivity.
  - by eexists.
Defined.

(** The run on a machine without the command line tool. *)
Lemma parse_propagates_raised_witness :
  (demo_run (with_spawn (demo_env demo_config 0 "") demo_no_az) ∅).1
  = Err (OSError "No such file or directory: 'az'")
  ∧ ∃ tr, trace (demo_run (with_spawn (demo_env demo_config 0 "") demo_no_az) ∅).2
          = tr ++ [EvSpawn demo_list_command
                     (Raised (OSError "No such file or directory: 'az'"))].
Proof.
  apply (parse_propagates_raised (with_spawn (demo_env demo_config 0 "") demo_no_az)
           "hosts.azure_arc.yml" true demo_fs ∅
           (demo_run (with_spawn (demo_env demo_config 0 "") demo_no_az) ∅).1
           (demo_run (with_spawn (demo_env demo_config 0 "") demo_no_az) ∅).2
           demo_list_command (OSError "No such file or directory: 'az'")).
  - vm_compute. reflexivity.
  - apply list_elem_of_lookup_2 with (i := 1). vm_compute. reflexivity.
  - exact I.
Defined.

(** The removal of the stale output file. *)
Lemma parse_removes_only_output_witness :
  config_file_path_of demo_config = PyStr "/tmp/azure_arc_ssh_config"
  ∧ (∃ content, demo_fs !! "/tmp/azure_arc_ssh_config" = Some (File content))
  ∧ ∃ tr, trace (demo_run (demo_env demo_config 0 "") ∅).2
          = EvRemove "/tmp/azure_arc_ssh_config" :: tr
          ∧ Forall is_spawn tr.
Proof.
  apply (parse_removes_only_output (demo_env demo_config 0 "") "hosts.azure_arc.yml" true
           demo_fs ∅ (demo_run (demo_env demo_config 0 "") ∅).1
           (demo_run (demo_env demo_config 0 "") ∅).2 demo_config).
  - reflexivity.
  - vm_compute. reflexivity.
  - apply list_elem_of_lookup_2 with (i := 0). vm_compute. reflexivity.
Defined.

(** The commands of the run in which every command succeeds. *)
Lemma parse_commands_in_order_witness :
  ∃ tr0 cmd out names evs,
    Forall (λ ev, ¬ is_spawn ev) tr0
    ∧ is_list_command cmd
    ∧ listed (demo_env demo_config 0 "") out = Ok (PyStr <$> names)
    ∧ trace (demo_run (demo_env demo_config 0 "") ∅).2
      = tr0 ++ EvSpawn cmd (Exited 0 out) :: evs
    ∧ Forall2 generated names evs
    ∧ length evs = length names.
Proof.
  apply (parse_commands_in_order (demo_env demo_config 0 "") "hosts.azure_arc.yml" true
           demo_fs ∅ (demo_run (demo_env demo_config 0 "") ∅).2).
  vm_compute. reflexivity.
Defined.

(** A run whose commands write nothing: the stale output file is removed
    and that is all. *)
Lemma parse_writes_nothing_witness :
  fs (demo_run (with_spawn (demo_env demo_config 0 "") demo_read_only) ∅).2 = demo_fs
  ∨ ∃ cfg p content,
      _read_config_data (with_spawn (demo_env demo_config 0 "") demo_read_only)
        "hosts.azure_arc.yml" = Ok cfg
      ∧ config_file_path_of cfg = PyStr p ∧ demo_fs !! p = Some (File content)
      ∧ fs (demo_run (with_spawn (demo_env demo_config 0 "") demo_read_only) ∅).2
        = delete p demo_fs.
Proof.
  apply (parse_writes_nothing (with_spawn (demo_env demo_config 0 "") demo_read_only)
           "hosts.azure_arc.yml" true demo_fs ∅
           (demo_run (with_spawn (demo_env demo_config 0 "") demo_read_only) ∅).1).
  - intros tr cmd fs1. reflexivity.
  - vm_compute. reflexivity.
Defined.

(** A listing that names [web1] twice: two records, one host. *)
Lemma parse_hosts_after_completed_witness :
  dom (inv (demo_run (with_json (demo_env demo_config 0 "")
                        (λ _, Some (PyList demo_twice))) ∅).2)
  = dom (∅ : inventory) ∪ list_to_set ["web1"; "web1"]
  ∧ size (dom (inv (demo_run (with_json (demo_env demo_config 0 "")
                                (λ _, Some (PyList demo_twice))) ∅).2))
    ≤ size (dom (∅ : inventory)) + length demo_twice.
Proof.
  apply (parse_hosts_after_completed
           (with_json (demo_env demo_config 0 "") (λ _, Some (PyList demo_twice)))
           "hosts.azure_arc.yml" true demo_fs ∅
           (demo_run (with_json (demo_env demo_config 0 "")
                        (λ _, Some (PyList demo_twice))) ∅).2
           demo_list_command "machines" demo_twice ["web1"; "web1"]).
  - vm_compute. reflexivity.
  - apply list_elem_of_lookup_2 with (i := 1). vm_compute. reflexivity.
  - by eexists.
  - reflexivity.
  - repeat constructor; eexists; (split; [reflexivity | vm_compute; reflexivity]).
Defined.

(** ** The variables of the listed machines *)

Lemma host_vars_connection (a p : string) (old : gmap string pyval) :
  host_vars a p old !! "ansible_connection" = Some (PyStr "ssh").
Proof.
  unfold host_vars. rewrite lookup_insert_ne by done. apply lookup_insert_eq.
Qed.

Lemma host_vars_common_args (a p : string) (old : gmap string pyval) :
  host_vars a p old !! "ansible_ssh_common_args" = Some (PyStr ("-F " +:+ p)).
Proof. unfold host_vars. apply lookup_insert_eq. Qed.

(** C2, as amended: after a run of [parse] that completes, every machine of
    the listing is a host with the three variables set: [ansible_host] is the
    resource group, the name of the machine and the user name joined by
    ["-"], [ansible_connection] is ["ssh"], and [ansible_ssh_common_args] is
    ["-F "] followed by the configured path of the output file.  Its other
    variables are those it had before the run: a host that was not in the
    inventory has exactly these three. *)
Theorem parse_host_variables (E : env) (path : string) (cache : bool)
    (fs0 : filesystem) (inv0 : inventory) (w' : world)
    (cfg : gmap string pyval)
    (cmd : list string) (out : string) (recs : list pyval) (names : list string)
    (h : string) :
  _read_config_data E path = Ok cfg →
  parse E path cache (start fs0 inv0) = (Ok tt, w') →
  EvSpawn cmd (Exited 0 out) ∈ trace w' →
  is_list_command cmd →
  json_loads E out = Some (PyList recs) →
  Forall2 machine_record recs names →
  h ∈ names →
  ∃ g u p vars,
    resource_group_of cfg = PyStr g ∧ username_of cfg = PyStr u
    ∧ config_file_path_of cfg = PyStr p
    ∧ inv w' !! h = Some vars
    ∧ vars !! "ansible_host" = Some (PyStr (g +:+ "-" +:+ h +:+ "-" +:+ u))
    ∧ vars !! "ansible_connection" = Some (PyStr "ssh")
    ∧ vars !! "ansible_ssh_common_args" = Some (PyStr ("-F " +:+ p))
    ∧ (∀ k, ¬ parse_variable k → vars !! k = default ∅ (inv0 !! h) !! k)
    ∧ (inv0 !! h = None →
       vars = {[ "ansible_host" := PyStr (g +:+ "-" +:+ h +:+ "-" +:+ u);
                 "ansible_connection" := PyStr "ssh";
                 "ansible_ssh_common_args" := PyStr ("-F " +:+ p) ]}).
Proof.
  intros Hcfg Hrun Hev Hlist Hjson Hrecs Hh. apply parse_parse_run in Hrun.
  destruct (parse_run_completed E _ _ _ _ Hrun)
    as (cfg' & w1 & cmd' & stdout & names' & evs
        & Hcfg' & Hquiet & _ & Hlisted & Htrace & Hevs & _ & Hin).
  rewrite Hcfg in Hcfg'. injection Hcfg' as <-.
  assert (stdout = out) as ->.
  { rewrite Htrace in Hev. apply elem_of_app in Hev as [Hev | Hev].
    - rewrite Forall_forall in Hquiet. by destruct (Hquiet _ Hev).
    - apply elem_of_cons in Hev as [[= _ <-] | Hev]; [done |].
      destruct (generated_events _ _ _ Hevs Hev) as (n & c & o & _ & [= <- _] & Hc).
      by apply ssh_config_not_list in Hc. }
  assert (names' = names) as ->.
  { apply PyStr_fmap_inj. unfold listed in Hlisted. rewrite Hjson in Hlisted.
    cbn [py_iter] in Hlisted. rewrite (names_of_records _ _ Hrecs) in Hlisted.
    by injection Hlisted. }
  destruct (Hin h Hh) as (g & u & p & Hg & Hu & Hp & Hlook).
  exists g, u, p, (host_vars (g +:+ "-" +:+ h +:+ "-" +:+ u) p (default ∅ (inv0 !! h))).
  split_and!; try done.
  - apply host_vars_alias.
  - apply host_vars_connection.
  - apply host_vars_common_args.
  - intros k Hk. by apply host_vars_other.
  - intros ->. apply host_vars_fresh.
Qed.

(** [web1], which had an owner before the run in which every command
    succeeds. *)
Lemma parse_host_variables_witness :
  ∃ g u p vars,
    resource_group_of demo_config = PyStr g ∧ username_of demo_config = PyStr u
    ∧ config_file_path_of demo_config = PyStr p
    ∧ inv (demo_run (demo_env demo_config 0 "")
             {[ "web1" := {[ "owner" := PyStr "ops" ]} ]}).2 !! "web1" = Some vars
    ∧ vars !! "ansible_host" = Some (PyStr (g +:+ "-" +:+ "web1" +:+ "-" +:+ u))
    ∧ vars !! "ansible_connection" = Some (PyStr "ssh")
    ∧ vars !! "ansible_ssh_common_args" = Some (PyStr ("-F " +:+ p))
    ∧ (∀ k, ¬ parse_variable k →
         vars !! k
         = default ∅ (({[ "web1" := {[ "owner" := PyStr "ops" ]} ]} : inventory) !! "web1")
             !! k)
    ∧ (({[ "web1" := {[ "owner" := PyStr "ops" ]} ]} : inventory) !! "web1" = None →
       vars = {[ "ansible_host" := PyStr (g +:+ "-" +:+ "web1" +:+ "-" +:+ u);
                 "ansible_connection" := PyStr "ssh";
                 "ansible_ssh_common_args" := PyStr ("-F " +:+ p) ]}).
Proof.
  apply (parse_host_variables (demo_env demo_config 0 "") "hosts.azure_arc.yml" true
           demo_fs {[ "web1" := {[ "owner" := PyStr "ops" ]} ]}
           (demo_run (demo_env demo_config 0 "")
              {[ "web1" := {[ "owner" := PyStr "ops" ]} ]}).2
           demo_config demo_list_command "machines" demo_records ["web1"; "db1"] "web1").
  - reflexivity.
  - vm_compute. reflexivity.
  - apply list_elem_of_lookup_2 with (i := 1). vm_compute. reflexivity.
  - by eexists.
  - reflexivity.
  - repeat constructor; eexists; (split; [reflexivity | vm_compute; reflexivity]).
  - left.
Defined.

(** C2 as stated fails: [web1], in the inventory with an owner before the
    run, has four variables after the run in which every command succeeds. *)
Lemma parse_host_variables_counterexample : ¬ every_registered_host_has_three_variables.
Proof.
  intros Hall.
  destruct (Hall (demo_env demo_config 0 "") "hosts.azure_arc.yml" true demo_fs
              {[ "web1" := {[ "owner" := PyStr "ops" ]} ]}
              (demo_run (demo_env demo_config 0 "")
                 {[ "web1" := {[ "owner" := PyStr "ops" ]} ]}).2
              demo_config demo_list_command "machines" demo_records ["web1"; "db1"]
              "web1")
    as (g & u & p & _ & _ & _ & Hvars).
  - reflexivity.
  - vm_compute. reflexivity.
  - apply list_elem_of_lookup_2 with (i := 1). vm_compute. reflexivity.
  - by eexists.
  - reflexivity.
  - repeat constructor; eexists; (split; [reflexivity | vm_compute; reflexivity]).
  - left.
  - assert (Howner :
      (inv (demo_run (demo_env demo_config 0 "")
              {[ "web1" := {[ "owner" := PyStr "ops" ]} ]}).2 !! "web1")
        ≫= (λ vars, vars !! "owner") = Some (PyStr "ops"))
      by (vm_compute; reflexivity).
    rewrite Hvars in Howner. cbn [mbind option_bind] in Howner.
    rewrite !lookup_insert_ne in Howner by done.
    by rewrite lookup_singleton_ne in Howner.
Qed.
